(** * losspager.io.pagerdata: the PagerData report aggregator

    A shallow embedding of [src/losspager/io/pagerdata.py] and the
    properties of its staged builder: the setters, [validate] (the finalize
    step), the derivation helpers it runs, and the report accessors.

    Python values that the module only stores and passes on are kept as
    dynamically typed values ([pyval]); dictionaries are association lists
    in insertion order, as [dict] and [OrderedDict] iterate; a raised
    exception is a value of [exn], and an attribute that no statement has
    assigned yet is [None]. *)

From Stdlib Require Import String Ascii List ZArith QArith Lia Bool Permutation.
Import ListNotations.
Local Open Scope string_scope.
Local Open Scope Z_scope.

(** ** Python values, exceptions and dictionaries *)

#[local] Set Warnings "-register-all".

(** A float is kept as the rational it denotes (the module never computes
    with one); an object of a collaborator (a datetime, a grid layer, a
    city table, a catalog) is an opaque handle. *)
Inductive pyval : Type :=
| PyNone
| PyBool (b : bool)
| PyInt (n : Z)
| PyFloat (q : Q)
| PyStr (s : string)
| PyList (l : list pyval)
| PyDict (d : list (string * pyval))
| PyObj (handle : N).

(** Exceptions the module can raise, all of them the interpreter's own.
    A [NameError] carries the name that is not bound, a [KeyError] the
    key that was looked up. *)
Inductive exn : Type :=
| NameError (name : string)
| KeyError (key : pyval)
| IndexError
| UnboundLocalError (name : string)
| AttributeError (name : string)
| ValueError
| TypeError.

Inductive result (A : Type) : Type :=
| Ok (a : A)
| Raise (e : exn).
Arguments Ok {A} a.
Arguments Raise {A} e.

Definition rbind {A B} (r : result A) (k : A -> result B) : result B :=
  match r with
  | Ok a => k a
  | Raise e => Raise e
  end.

Declare Scope py_scope.
Delimit Scope py_scope with py.
Notation "x <- r ;; k" := (rbind r (fun x => k))
  (at level 61, r at next level, right associativity) : py_scope.
Notation "' p <- r ;; k" := (rbind r (fun x => match x with p => k end))
  (at level 61, p pattern, r at next level, right associativity) : py_scope.
Local Open Scope py_scope.

(** [PagerException(msg)].  The module names this class in [validate]
    but neither defines nor imports it, so evaluating the call raises a
    [NameError] for the name and no exception object is built.  The
    message of the source is kept as the argument. *)
Definition PagerException (msg : string) : result exn :=
  Raise (NameError "PagerException").

Definition pydict : Type := list (string * pyval).

Section Dict.
Context {V : Type}.

(** [d[k]] *)
Fixpoint dict_get (d : list (string * V)) (k : string) : result V :=
  match d with
  | [] => Raise (KeyError (PyStr k))
  | (k', v) :: d' => if String.eqb k' k then Ok v else dict_get d' k
  end.

(** [d[k] = v]: an existing key keeps its place, a new one goes last. *)
Fixpoint dict_set (d : list (string * V)) (k : string) (v : V)
  : list (string * V) :=
  match d with
  | [] => [(k, v)]
  | (k', v') :: d' =>
      if String.eqb k' k then (k', v) :: d' else (k', v') :: dict_set d' k v
  end.

Definition keys (d : list (string * V)) : list string := map fst d.
End Dict.

(** [v[k]] on a value that should be a dictionary. *)
Definition getitem (v : pyval) (k : string) : result pyval :=
  match v with
  | PyDict d => dict_get d k
  | _ => Raise TypeError
  end.

(** [s.split(sep)] for a one-character separator: the pieces between the
    occurrences of [sep], at least one piece. *)
Fixpoint split (sep : ascii) (s : string) : list string :=
  match s with
  | EmptyString => [EmptyString]
  | String c s' =>
      if Ascii.eqb c sep then EmptyString :: split sep s'
      else match split sep s' with
           | [] => [String c EmptyString]
           | p :: ps => String c p :: ps
           end
  end.

(** Python's [a > b] on strings: lexicographic on code points. *)
Definition str_gt (a b : string) : bool := String.ltb b a.

(** ** Constants of the module *)

Definition DATETIMEFMT : string := "%Y-%m-%d %H:%M:%S".
Definition MINEXP : Z := 1000.
Definition SOFTWARE_VERSION : string := "2.0b".
Definition EVENT_RADIUS : Z := 400.

(** ** [_get_maxmmi] *)

Definition ExposureTable : Type := list (string * list Z).

(** [range(9,-1,-1)] *)
Definition range_9_down : list nat := rev (seq 0 10).

(** The [for] loop of [_get_maxmmi].  [exp] is the loop's local: bound at
    each iteration; [maxmmi] is bound only on the iteration that breaks,
    so the loop yields [None] for it when it runs to the end. *)
Fixpoint maxmmi_loop (total : list Z) (idx : list nat) (exp : option Z)
  : result (option Z * option Z) :=
  match idx with
  | [] => Ok (None, exp)
  | i :: idx' =>
      match nth_error total i with
      | None => Raise IndexError
      | Some e =>
          if MINEXP <=? e then Ok (Some (Z.of_nat i + 1), Some e)
          else maxmmi_loop total idx' (Some e)
      end
  end.

(** Reading a local that no statement has bound. *)
Definition local {A} (name : string) (v : option A) : result A :=
  match v with
  | Some a => Ok a
  | None => Raise (UnboundLocalError name)
  end.

(** [exposure['TotalExposure']] is evaluated at each iteration; the range
    is not empty, so a missing key raises at the first one, as here. *)
Definition _get_maxmmi (exposure : ExposureTable) : result (Z * Z) :=
  total <- dict_get exposure "TotalExposure" ;;
  '(maxmmi, exp) <- maxmmi_loop total range_9_down None ;;
  maxmmi <- local "maxmmi" maxmmi ;;
  exp <- local "exp" exp ;;
  Ok (maxmmi, exp).

(** ** Collaborators

    The loss models, the shaking grid, the city gazetteer, the historical
    catalog and the clock live outside this module.  Each is taken as the
    functions the module calls on it. *)

(** [EmpiricalLoss]-like objects: the four methods called on [_fatmodel]
    and [_ecomodel]. *)
Record LossModel : Type := {
  getAlertLevel : pydict -> string;
  getCombinedG : pydict -> pyval;
  getProbabilities : pydict -> pyval -> pydict;
  getLossRates : string -> list Z -> list pyval
}.

(** The [shakegrid] argument of [setInputs]. *)
Record ShakeGrid : Type := {
  getEventDict : pydict;
  getShakeDict : pydict;
  getLayer : string -> pyval
}.

(** Module-level imports: [datetime], [ElapsedTime], [get_local_time],
    [Cities], [PagerCities], [ExpoCat]. *)
Record Collaborators : Type := {
  utcnow : pyval;
  strftime : pyval -> string -> string;
  getElapsedString : pyval -> pyval -> pyval;
  get_local_time : pyval -> pyval -> pyval -> pyval;
  loadFromGeoNames : pyval -> pyval;
  PagerCities : pyval -> pyval -> pyval;
  getCityTable_ : pyval -> pyval -> pyval;
  fromDefault : pyval;
  selectByRadius : pyval -> pyval -> pyval -> Z -> pyval;
  getHistoricalEvents : pyval -> pyval -> Z -> pyval -> pyval -> pyval
}.

(** ** The [PagerData] object

    [__init__] assigns [_pagerdict] and the four flags only.  The other
    attributes come into being in the setter that assigns them, all those
    of one setter together, so they are kept per setter: a group that is
    [None] has none of its attributes assigned.  [_nmmi] is assigned by
    [_setPager]. *)

Record InputAttrs : Type := {
  _event_dict : pydict;
  _shake_dict : pydict;
  _shakegrid : ShakeGrid;
  _pagerversion : pyval;
  _eventcode : pyval
}.

Record ExposureAttrs : Type := {
  _maxmmi : Z;
  _exposure : ExposureTable;
  _econ_exposure : ExposureTable
}.

Record CommentAttrs : Type := {
  _impact1 : pyval;
  _impact2 : pyval;
  _struct_comment : pyval;
  _hist_comment : pyval;
  _secondary_comment : pyval
}.

Record ModelAttrs : Type := {
  _fatmodel : LossModel;
  _ecomodel : LossModel;
  _fatmodel_results : pydict;
  _ecomodel_results : pydict;
  _semi_loss : pyval;
  _res_fat : pyval;
  _non_res_fat : pyval
}.

Record MapAttrs : Type := {
  _city_file : pyval;
  _map_cities : pyval
}.

Record PagerData : Type := {
  _pagerdict : pydict;
  _input_set : bool;
  _exposure_set : bool;
  _models_set : bool;
  _comments_set : bool;
  input_attrs : option InputAttrs;
  exposure_attrs : option ExposureAttrs;
  comment_attrs : option CommentAttrs;
  model_attrs : option ModelAttrs;
  map_attrs : option MapAttrs;
  _nmmi : option Z
}.

Definition __init__ : PagerData :=
  {| _pagerdict := [];
     _input_set := false;
     _exposure_set := false;
     _models_set := false;
     _comments_set := false;
     input_attrs := None;
     exposure_attrs := None;
     comment_attrs := None;
     model_attrs := None;
     map_attrs := None;
     _nmmi := None |}.

(** [self.name], where [name] belongs to the group [g]. *)
Definition attr {G A} (name : string) (g : option G) (proj : G -> A)
  : result A :=
  match g with
  | Some x => Ok (proj x)
  | None => Raise (AttributeError name)
  end.

(** Methods run on the object and may assign to it before they raise: a
    method is a function of the object to an outcome and the object as
    the method left it. *)
Definition M (A : Type) : Type := PagerData -> result A * PagerData.

Definition mret {A} (a : A) : M A := fun self => (Ok a, self).

Definition mbind {A B} (m : M A) (k : A -> M B) : M B :=
  fun self =>
    match m self with
    | (Ok a, self') => k a self'
    | (Raise e, self') => (Raise e, self')
    end.

Definition raise {A} (e : exn) : M A := fun self => (Raise e, self).

(** [raise e], where evaluating the expression [e] can itself raise. *)
Definition raising {A} (e : result exn) : M A :=
  match e with
  | Ok x => raise x
  | Raise x => raise x
  end.

(** A computation that only reads the object. *)
Definition reading {A} (f : PagerData -> result A) : M A :=
  fun self => (f self, self).

(** An assignment to the object. *)
Definition assign (f : PagerData -> PagerData) : M unit :=
  fun self => (Ok tt, f self).

Declare Scope method_scope.
Delimit Scope method_scope with M.
Notation "x <- m ;; k" := (mbind m (fun x => k))
  (at level 61, m at next level, right associativity) : method_scope.
Notation "' p <- m ;; k" := (mbind m (fun x => match x with p => k end))
  (at level 61, p pattern, m at next level, right associativity)
  : method_scope.
Notation "m ;; k" := (mbind m (fun _ => k))
  (at level 61, right associativity) : method_scope.

(** ** Setters *)

Definition setInputs (shakegrid : ShakeGrid) (pagerversion eventcode : pyval)
  : M unit :=
  assign (fun self =>
    {| _pagerdict := _pagerdict self;
       _input_set := true;
       _exposure_set := _exposure_set self;
       _models_set := _models_set self;
       _comments_set := _comments_set self;
       input_attrs :=
         Some {| _event_dict := getEventDict shakegrid;
                 _shake_dict := getShakeDict shakegrid;
                 _shakegrid := shakegrid;
                 _pagerversion := pagerversion;
                 _eventcode := eventcode |};
       exposure_attrs := exposure_attrs self;
       comment_attrs := comment_attrs self;
       model_attrs := model_attrs self;
       map_attrs := map_attrs self;
       _nmmi := _nmmi self |}).

(** [nmmi,self._maxmmi = self._get_maxmmi(exposure)]: the first component
    of the pair goes to the local [nmmi], the second to [self._maxmmi]. *)
Definition setExposure (exposure econ_exposure : ExposureTable) : M unit :=
  ('(nmmi, maxmmi) <- reading (fun _ => _get_maxmmi exposure) ;;
   assign (fun self =>
    {| _pagerdict := _pagerdict self;
       _input_set := _input_set self;
       _exposure_set := true;
       _models_set := _models_set self;
       _comments_set := _comments_set self;
       input_attrs := input_attrs self;
       exposure_attrs :=
         Some {| _maxmmi := maxmmi;
                 _exposure := exposure;
                 _econ_exposure := econ_exposure |};
       comment_attrs := comment_attrs self;
       model_attrs := model_attrs self;
       map_attrs := map_attrs self;
       _nmmi := _nmmi self |}))%M.

Definition setComments
  (impact1 impact2 struct_comment hist_comment secondary_comment : pyval)
  : M unit :=
  assign (fun self =>
    {| _pagerdict := _pagerdict self;
       _input_set := _input_set self;
       _exposure_set := _exposure_set self;
       _models_set := _models_set self;
       _comments_set := true;
       input_attrs := input_attrs self;
       exposure_attrs := exposure_attrs self;
       comment_attrs :=
         Some {| _impact1 := impact1;
                 _impact2 := impact2;
                 _struct_comment := struct_comment;
                 _hist_comment := hist_comment;
                 _secondary_comment := secondary_comment |};
       model_attrs := model_attrs self;
       map_attrs := map_attrs self;
       _nmmi := _nmmi self |}).

Definition setModelResults (fatmodel ecomodel : LossModel)
  (fatmodel_results ecomodel_results : pydict)
  (semi_loss res_fat non_res_fat : pyval) : M unit :=
  assign (fun self =>
    {| _pagerdict := _pagerdict self;
       _input_set := _input_set self;
       _exposure_set := _exposure_set self;
       _models_set := true;
       _comments_set := _comments_set self;
       input_attrs := input_attrs self;
       exposure_attrs := exposure_attrs self;
       comment_attrs := comment_attrs self;
       model_attrs :=
         Some {| _fatmodel := fatmodel;
                 _ecomodel := ecomodel;
                 _fatmodel_results := fatmodel_results;
                 _ecomodel_results := ecomodel_results;
                 _semi_loss := semi_loss;
                 _res_fat := res_fat;
                 _non_res_fat := non_res_fat |};
       map_attrs := map_attrs self;
       _nmmi := _nmmi self |}).

Definition setMapInfo (cityfile mapcities : pyval) : M unit :=
  assign (fun self =>
    {| _pagerdict := _pagerdict self;
       _input_set := _input_set self;
       _exposure_set := _exposure_set self;
       _models_set := _models_set self;
       _comments_set := _comments_set self;
       input_attrs := input_attrs self;
       exposure_attrs := exposure_attrs self;
       comment_attrs := comment_attrs self;
       model_attrs := model_attrs self;
       map_attrs :=
         Some {| _city_file := cityfile; _map_cities := mapcities |};
       _nmmi := _nmmi self |}).

(** [self._nmmi = nmmi] *)
Definition set_nmmi (nmmi : Z) (self : PagerData) : PagerData :=
  {| _pagerdict := _pagerdict self;
     _input_set := _input_set self;
     _exposure_set := _exposure_set self;
     _models_set := _models_set self;
     _comments_set := _comments_set self;
     input_attrs := input_attrs self;
     exposure_attrs := exposure_attrs self;
     comment_attrs := comment_attrs self;
     model_attrs := model_attrs self;
     map_attrs := map_attrs self;
     _nmmi := Some nmmi |}.

(** [self._pagerdict[key] = v] *)
Definition set_section (key : string) (v : pyval) (self : PagerData)
  : PagerData :=
  {| _pagerdict := dict_set (_pagerdict self) key v;
     _input_set := _input_set self;
     _exposure_set := _exposure_set self;
     _models_set := _models_set self;
     _comments_set := _comments_set self;
     input_attrs := input_attrs self;
     exposure_attrs := exposure_attrs self;
     comment_attrs := comment_attrs self;
     model_attrs := model_attrs self;
     map_attrs := map_attrs self;
     _nmmi := _nmmi self |}.

(** ** Attribute reads: [self._x] is an [AttributeError] until assigned *)

Definition self_event_dict (self : PagerData) : result pydict :=
  attr "_event_dict" (input_attrs self) _event_dict.
Definition self_shake_dict (self : PagerData) : result pydict :=
  attr "_shake_dict" (input_attrs self) _shake_dict.
Definition self_shakegrid (self : PagerData) : result ShakeGrid :=
  attr "_shakegrid" (input_attrs self) _shakegrid.
Definition self_pagerversion (self : PagerData) : result pyval :=
  attr "_pagerversion" (input_attrs self) _pagerversion.
Definition self_eventcode (self : PagerData) : result pyval :=
  attr "_eventcode" (input_attrs self) _eventcode.
Definition self_exposure (self : PagerData) : result ExposureTable :=
  attr "_exposure" (exposure_attrs self) _exposure.
Definition self_econ_exposure (self : PagerData) : result ExposureTable :=
  attr "_econ_exposure" (exposure_attrs self) _econ_exposure.
Definition self_impact1 (self : PagerData) : result pyval :=
  attr "_impact1" (comment_attrs self) _impact1.
Definition self_impact2 (self : PagerData) : result pyval :=
  attr "_impact2" (comment_attrs self) _impact2.
Definition self_struct_comment (self : PagerData) : result pyval :=
  attr "_struct_comment" (comment_attrs self) _struct_comment.
Definition self_hist_comment (self : PagerData) : result pyval :=
  attr "_hist_comment" (comment_attrs self) _hist_comment.
Definition self_secondary_comment (self : PagerData) : result pyval :=
  attr "_secondary_comment" (comment_attrs self) _secondary_comment.
Definition self_fatmodel (self : PagerData) : result LossModel :=
  attr "_fatmodel" (model_attrs self) _fatmodel.
Definition self_ecomodel (self : PagerData) : result LossModel :=
  attr "_ecomodel" (model_attrs self) _ecomodel.
Definition self_fatmodel_results (self : PagerData) : result pydict :=
  attr "_fatmodel_results" (model_attrs self) _fatmodel_results.
Definition self_ecomodel_results (self : PagerData) : result pydict :=
  attr "_ecomodel_results" (model_attrs self) _ecomodel_results.
Definition self_semi_loss (self : PagerData) : result pyval :=
  attr "_semi_loss" (model_attrs self) _semi_loss.
Definition self_res_fat (self : PagerData) : result pyval :=
  attr "_res_fat" (model_attrs self) _res_fat.
Definition self_non_res_fat (self : PagerData) : result pyval :=
  attr "_non_res_fat" (model_attrs self) _non_res_fat.
Definition self_city_file (self : PagerData) : result pyval :=
  attr "_city_file" (map_attrs self) _city_file.
Definition self_map_cities (self : PagerData) : result pyval :=
  attr "_map_cities" (map_attrs self) _map_cities.
Definition self_nmmi (self : PagerData) : result Z :=
  match _nmmi self with
  | Some n => Ok n
  | None => Raise (AttributeError "_nmmi")
  end.

(** ** Tables local to [_setPager] and [_setAlerts] *)

(** A dictionary keyed by integers. *)
Fixpoint idict_get {V} (d : list (Z * V)) (k : Z) : result V :=
  match d with
  | [] => Raise (KeyError (PyInt k))
  | (k', v) :: d' => if Z.eqb k' k then Ok v else idict_get d' k
  end.

Definition levels : list (string * Z) :=
  [("green", 0); ("yellow", 1); ("orange", 2); ("red", 3)].
Definition rlevels : list (Z * string) :=
  [(0, "green"); (1, "yellow"); (2, "orange"); (3, "red")].

Definition colors : list (string * string) :=
  [("0-1", "green");
   ("1-10", "yellow");
   ("10-100", "yellow");
   ("100-1000", "orange");
   ("1000-10000", "red");
   ("10000-100000", "red");
   ("100000-10000000", "red")].
Definition leveldict : list (string * Z) :=
  [("green", 0); ("yellow", 1); ("orange", 2); ("red", 3)].
Definition rleveldict : list (Z * string) :=
  [(0, "green"); (1, "yellow"); (2, "orange"); (3, "red")].

(** [list(range(1,11))] and [np.arange(1,11)] *)
Definition range_1_11 : list Z := map Z.of_nat (seq 1 10).

(** [rmin,rmax = pieces]: exactly two values to unpack. *)
Definition unpack2 {A} (pieces : list A) : result (A * A) :=
  match pieces with
  | [a; b] => Ok (a, b)
  | _ => Raise ValueError
  end.

(** [for prange,pvalue in probs.items(): ... bins.append(abin)], the loop
    run once for the fatality group and once for the economic group. *)
Fixpoint bins_loop (items : pydict) (bins : list pyval)
  : result (list pyval) :=
  match items with
  | [] => Ok bins
  | (prange, pvalue) :: items' =>
      color <- dict_get colors prange ;;
      '(rmin, rmax) <- unpack2 (split "-" prange) ;;
      let abin := PyDict [("color", PyStr color);
                          ("min", PyStr rmin);
                          ("max", PyStr rmax);
                          ("probability", pvalue)] in
      bins_loop items' (bins ++ [abin])
  end.

(** [for ccode,exparray in table.items()], skipping the total key: the
    loop of [_setPopulationExposure] and of [_setEconomicExposure]. *)
Fixpoint country_exposures_loop (total_key : string)
  (items : ExposureTable) (country_exposures : list pyval) : list pyval :=
  match items with
  | [] => country_exposures
  | (ccode, exparray) :: items' =>
      if String.eqb ccode total_key
      then country_exposures_loop total_key items' country_exposures
      else
        let expdict := PyDict [("country_code", PyStr ccode);
                               ("exposure", PyList (map PyInt exparray))] in
        country_exposures_loop total_key items' (country_exposures ++ [expdict])
  end.

(** [for ccode,loss in results.items()], skipping the total key: the two
    loops of [_setModelResults]; [loss_key] is ['fatalities'] or
    ['us_dollars']. *)
Fixpoint country_losses_loop (model : LossModel) (total_key loss_key : string)
  (items : pydict) (country_losses : list pyval) : list pyval :=
  match items with
  | [] => country_losses
  | (ccode, loss) :: items' =>
      if String.eqb ccode total_key
      then country_losses_loop model total_key loss_key items' country_losses
      else
        let rates := getLossRates model ccode range_1_11 in
        let lossdict := PyDict [("country_code", PyStr ccode);
                                ("rates", PyList rates);
                                (loss_key, loss)] in
        country_losses_loop model total_key loss_key items'
                            (country_losses ++ [lossdict])
  end.

(** ** The derivation helpers and [validate] *)

Section Methods.
Variable env : Collaborators.

Definition _getComments (self : PagerData) : result pyval :=
  impact1 <- self_impact1 self ;;
  impact2 <- self_impact2 self ;;
  struct_comment <- self_struct_comment self ;;
  hist_comment <- self_hist_comment self ;;
  secondary_comment <- self_secondary_comment self ;;
  Ok (PyDict [("impact1", impact1);
              ("impact2", impact2);
              ("struct_comment", struct_comment);
              ("historical_comment", hist_comment);
              ("secondary_comment", secondary_comment)]).

Definition _setPager : M pyval :=
  (let process_time := utcnow env in
   let software_version := PyStr SOFTWARE_VERSION in
   let processing_time := PyStr (strftime env process_time DATETIMEFMT) in
   version_number <- reading self_pagerversion ;;
   event_dict <- reading self_event_dict ;;
   versioncode <- reading (fun _ => dict_get event_dict "event_id") ;;
   eventcode <- reading self_eventcode ;;
   fatmodel <- reading self_fatmodel ;;
   fatmodel_results <- reading self_fatmodel_results ;;
   let fatlevel := getAlertLevel fatmodel fatmodel_results in
   ecomodel <- reading self_ecomodel ;;
   ecomodel_results <- reading self_ecomodel_results ;;
   let ecolevel := getAlertLevel ecomodel ecomodel_results in
   lfat <- reading (fun _ => dict_get levels fatlevel) ;;
   leco <- reading (fun _ => dict_get levels ecolevel) ;;
   alert_level <- reading (fun _ => idict_get rlevels (Z.max lfat leco)) ;;
   exposure <- reading self_exposure ;;
   '(maxmmi, nmmi) <- reading (fun _ => _get_maxmmi exposure) ;;
   assign (set_nmmi nmmi) ;;
   event_dict <- reading self_event_dict ;;
   origin_time <- reading (fun _ => dict_get event_dict "event_timestamp") ;;
   let etimestr := getElapsedString env origin_time process_time in
   lat <- reading (fun _ => dict_get event_dict "lat") ;;
   lon <- reading (fun _ => dict_get event_dict "lon") ;;
   let localtime := get_local_time env origin_time lat lon in
   let ltimestr := PyStr (strftime env localtime DATETIMEFMT) in
   mret (PyDict [("software_version", software_version);
                 ("processing_time", processing_time);
                 ("version_number", version_number);
                 ("versioncode", versioncode);
                 ("eventcode", eventcode);
                 ("alert_level", PyStr alert_level);
                 ("maxmmi", PyInt maxmmi);
                 ("elapsed_time", etimestr);
                 ("local_time_string", ltimestr)]))%M.

Definition _setEvent (self : PagerData) : result pyval :=
  event_dict <- self_event_dict self ;;
  eventid <- dict_get event_dict "event_id" ;;
  time <- dict_get event_dict "event_timestamp" ;;
  lat <- dict_get event_dict "lat" ;;
  lon <- dict_get event_dict "lon" ;;
  depth <- dict_get event_dict "depth" ;;
  mag <- dict_get event_dict "magnitude" ;;
  version <- self_pagerversion self ;;
  location <- dict_get event_dict "event_description" ;;
  Ok (PyDict [("eventid", eventid);
              ("time", time);
              ("lat", lat);
              ("lon", lon);
              ("depth", depth);
              ("mag", mag);
              ("version", version);
              ("location", location)]).

Definition _setShakeInfo (self : PagerData) : result pyval :=
  shake_dict <- self_shake_dict self ;;
  shake_version <- dict_get shake_dict "shakemap_version" ;;
  shake_code_version <- dict_get shake_dict "code_version" ;;
  shake_time <- dict_get shake_dict "process_timestamp" ;;
  Ok (PyDict [("shake_version", shake_version);
              ("shake_code_version", shake_code_version);
              ("shake_time", shake_time)]).

Definition _setAlerts (self : PagerData) : result pyval :=
  fatmodel <- self_fatmodel self ;;
  fatmodel_results <- self_fatmodel_results self ;;
  let fatlevel := getAlertLevel fatmodel fatmodel_results in
  ecomodel <- self_ecomodel self ;;
  ecomodel_results <- self_ecomodel_results self ;;
  let ecolevel := getAlertLevel ecomodel ecomodel_results in
  lfat <- dict_get leveldict fatlevel ;;
  rfat <- idict_get rleveldict lfat ;;
  leco <- dict_get leveldict ecolevel ;;
  reco <- idict_get rleveldict leco ;;
  let is_fat_summary := str_gt rfat reco in
  let is_eco_summary := negb is_fat_summary in
  (* Create the fatality alert level *)
  let fat_gvalue := getCombinedG fatmodel fatmodel_results in
  let fatality := [("type", PyStr "fatality");
                   ("units", PyStr "fatalities");
                   ("gvalue", fat_gvalue);
                   ("summary", PyBool is_fat_summary);
                   ("level", PyStr fatlevel)] in
  let fatprobs := getProbabilities fatmodel fatmodel_results fat_gvalue in
  bins <- bins_loop fatprobs [] ;;
  let fatality := dict_set fatality "bins" (PyList bins) in
  let alerts := dict_set [] "fatality" (PyDict fatality) in
  (* Create the economic alert level *)
  let eco_gvalue := getCombinedG ecomodel ecomodel_results in
  let economic := [("type", PyStr "economic");
                   ("units", PyStr "USD");
                   ("gvalue", eco_gvalue);
                   ("summary", PyBool is_eco_summary);
                   ("level", PyStr ecolevel)] in
  let ecoprobs := getProbabilities ecomodel ecomodel_results eco_gvalue in
  bins <- bins_loop ecoprobs [] ;;
  let economic := dict_set economic "bins" (PyList bins) in
  let alerts := dict_set alerts "economic" (PyDict economic) in
  Ok (PyDict alerts).

Definition _setPopulationExposure (self : PagerData) : result pyval :=
  let mmi := PyList (map PyInt range_1_11) in
  exposure <- self_exposure self ;;
  total <- dict_get exposure "TotalExposure" ;;
  let aggregated_exposure := PyList (map PyInt total) in
  let country_exposures :=
    country_exposures_loop "TotalExposure" exposure [] in
  Ok (PyDict [("mmi", mmi);
              ("aggregated_exposure", aggregated_exposure);
              ("country_exposures", PyList country_exposures)]).

Definition _setEconomicExposure (self : PagerData) : result pyval :=
  let mmi := PyList (map PyInt range_1_11) in
  econ_exposure <- self_econ_exposure self ;;
  total <- dict_get econ_exposure "TotalEconomicExposure" ;;
  let aggregated_exposure := PyList (map PyInt total) in
  let country_exposures :=
    country_exposures_loop "TotalEconomicExposure" econ_exposure [] in
  Ok (PyDict [("mmi", mmi);
              ("aggregated_exposure", aggregated_exposure);
              ("country_exposures", PyList country_exposures)]).

Definition _setModelResults (self : PagerData) : result pyval :=
  (* organize the empirical fatality model results *)
  fatmodel_results <- self_fatmodel_results self ;;
  total_fatalities <- dict_get fatmodel_results "TotalFatalities" ;;
  fatmodel <- self_fatmodel self ;;
  let country_deaths :=
    country_losses_loop fatmodel "TotalFatalities" "fatalities"
                        fatmodel_results [] in
  let empfat := PyDict [("total_fatalities", total_fatalities);
                        ("country_fatalities", PyList country_deaths)] in
  (* organize the empirical economic model results *)
  ecomodel_results <- self_ecomodel_results self ;;
  total_dollars <- dict_get ecomodel_results "TotalDollars" ;;
  ecomodel <- self_ecomodel self ;;
  let country_dollars :=
    country_losses_loop ecomodel "TotalDollars" "us_dollars"
                        ecomodel_results [] in
  let empeco := PyDict [("total_dollars", total_dollars);
                        ("country_dollars", PyList country_dollars)] in
  (* organize the semi-empirical model results *)
  semi_loss <- self_semi_loss self ;;
  res_fat <- self_res_fat self ;;
  non_res_fat <- self_non_res_fat self ;;
  let semimodel := PyDict [("fatalities", semi_loss);
                           ("residental_fatalities", res_fat);
                           ("non_residental_fatalities", non_res_fat)] in
  Ok (PyDict [("empirical_fatality", empfat);
              ("empirical_economic", empeco);
              ("semi_empirical_fatalities", semimodel)]).

Definition _getHistoricalEarthquakes (self : PagerData) : result pyval :=
  let expocat := fromDefault env in
  event_dict <- self_event_dict self ;;
  clat <- dict_get event_dict "lat" ;;
  clon <- dict_get event_dict "lon" ;;
  let inbounds := selectByRadius env expocat clat clon EVENT_RADIUS in
  pager <- dict_get (_pagerdict self) "pager" ;;
  maxmmi <- getitem pager "maxmmi" ;;
  nmmi <- self_nmmi self ;;
  fatmodel_results <- self_fatmodel_results self ;;
  deaths <- dict_get fatmodel_results "TotalFatalities" ;;
  etime <- dict_get event_dict "event_timestamp" ;;
  let eventlist := getHistoricalEvents env inbounds maxmmi nmmi clat clon in
  Ok eventlist.

Definition _getCityTable (self : PagerData) : result pyval :=
  city_file <- self_city_file self ;;
  let cities := loadFromGeoNames env city_file in
  shakegrid <- self_shakegrid self ;;
  let pcities := PagerCities env cities (getLayer shakegrid "mmi") in
  map_cities <- self_map_cities self ;;
  let city_table := getCityTable_ env pcities map_cities in
  Ok city_table.

(** [self._pagerdict[key] = method()] *)
Definition store (key : string) (method : M pyval) : M unit :=
  (v <- method ;; assign (set_section key v))%M.

Definition validate : M unit :=
  (input_set <- reading (fun self => Ok (_input_set self)) ;;
   if negb input_set
   then raising (PagerException "You must call setInputs() first.") else
   exposure_set <- reading (fun self => Ok (_exposure_set self)) ;;
   if negb exposure_set
   then raising (PagerException "You must call setExposure() first.") else
   models_set <- reading (fun self => Ok (_models_set self)) ;;
   if negb models_set
   then raising (PagerException "You must call setExposure() first.") else
   comments_set <- reading (fun self => Ok (_comments_set self)) ;;
   if negb comments_set
   then raising (PagerException "You must call setComments() first.") else
   store "event_info" (reading _setEvent) ;;
   store "pager" _setPager ;;
   store "shake_info" (reading _setShakeInfo) ;;
   store "alerts" (reading _setAlerts) ;;
   store "population_exposure" (reading _setPopulationExposure) ;;
   store "economic_exposure" (reading _setEconomicExposure) ;;
   store "model_results" (reading _setModelResults) ;;
   store "city_table" (reading _getCityTable) ;;
   store "historical_earthquakes" (reading _getHistoricalEarthquakes) ;;
   store "comments" (reading _getComments))%M.

(** ** Accessors *)

Definition getEventInfo (self : PagerData) : result pyval :=
  dict_get (_pagerdict self) "event_info".

Definition getImpactComments (self : PagerData) : result (pyval * pyval) :=
  comments <- dict_get (_pagerdict self) "comments" ;;
  impact1 <- getitem comments "impact1" ;;
  comments <- dict_get (_pagerdict self) "comments" ;;
  impact2 <- getitem comments "impact2" ;;
  Ok (impact1, impact2).

Definition getSoftwareVersion (self : PagerData) : result pyval :=
  pager <- dict_get (_pagerdict self) "pager" ;;
  getitem pager "software_version".

Definition getElapsed (self : PagerData) : result pyval :=
  pager <- dict_get (_pagerdict self) "pager" ;;
  getitem pager "elapsed_time".

Definition getTotalExposure (self : PagerData) : result pyval :=
  population_exposure <- dict_get (_pagerdict self) "population_exposure" ;;
  getitem population_exposure "aggregated_exposure".

Definition getHistoricalTable (self : PagerData) : result pyval :=
  dict_get (_pagerdict self) "historical_earthquakes".

Definition getStructureComment (self : PagerData) : result pyval :=
  comments <- dict_get (_pagerdict self) "comments" ;;
  getitem comments "struct_comment".

Definition getHistoricalComment (self : PagerData) : result pyval :=
  comments <- dict_get (_pagerdict self) "comments" ;;
  getitem comments "historical_comment".

Definition getCityTable (self : PagerData) : result pyval :=
  dict_get (_pagerdict self) "city_table".

Definition getSummaryAlert (self : PagerData) : result pyval :=
  pager <- dict_get (_pagerdict self) "pager" ;;
  getitem pager "alert_level".

End Methods.

(** ** Reading the report and the states before finalize *)

(** [v[k1][k2]...] *)
Fixpoint lookup_path (v : pyval) (path : list string) : result pyval :=
  match path with
  | [] => Ok v
  | k :: path' => v' <- getitem v k ;; lookup_path v' path'
  end.

(** [self._pagerdict[k1][k2]...] *)
Definition report (self : PagerData) (path : list string) : result pyval :=
  lookup_path (PyDict (_pagerdict self)) path.

(** The object a method leaves behind. *)
Definition run {A} (m : M A) (self : PagerData) : PagerData := snd (m self).

Inductive setter : M unit -> Prop :=
| setter_inputs g v c : setter (setInputs g v c)
| setter_exposure e ee : setter (setExposure e ee)
| setter_comments i1 i2 sc hc xc : setter (setComments i1 i2 sc hc xc)
| setter_models fm em fr er sl rf nrf :
    setter (setModelResults fm em fr er sl rf nrf)
| setter_mapinfo cf mc : setter (setMapInfo cf mc).

(** A registry on which [validate] has not been called: a fresh object
    and any setter calls on it, whether they returned or raised. *)
Inductive pre_finalize : PagerData -> Prop :=
| pre_init : pre_finalize __init__
| pre_setter m self : setter m -> pre_finalize self -> pre_finalize (run m self).

(** The seven range labels of a probability mapping, with the colour and
    the two bounds the specification gives for each. *)
Definition range_table : list (string * (string * string * string)) :=
  [("0-1", ("green", "0", "1"));
   ("1-10", ("yellow", "1", "10"));
   ("10-100", ("yellow", "10", "100"));
   ("100-1000", ("orange", "100", "1000"));
   ("1000-10000", ("red", "1000", "10000"));
   ("10000-100000", ("red", "10000", "100000"));
   ("100000-10000000", ("red", "100000", "10000000"))].

Definition range_labels : list string := keys range_table.

(** The bin the table gives for a range label and its probability, the
    bounds as the text of the label has them. *)
Definition table_bin (prange : string) (pvalue : pyval) : result pyval :=
  '(color, rmin, rmax) <- dict_get range_table prange ;;
  Ok (PyDict [("color", PyStr color);
              ("min", PyStr rmin);
              ("max", PyStr rmax);
              ("probability", pvalue)]).

(** The per-country record of an exposure section. *)
Definition country_record (entry : string * list Z) : pyval :=
  PyDict [("country_code", PyStr (fst entry));
          ("exposure", PyList (map PyInt (snd entry)))].

Definition is_country (total_key : string) (entry : string * list Z) : bool :=
  negb (String.eqb (fst entry) total_key).

(** ** A concrete run

    The scenario of an event at (10.0, 120.0) in one country, with
    collaborators that answer with fixed values. *)

Definition demo_env : Collaborators :=
  {| utcnow := PyObj 1;
     strftime := fun _ _ => "2016-01-01 00:00:00";
     getElapsedString := fun _ _ => PyStr "1 hour";
     get_local_time := fun t _ _ => t;
     loadFromGeoNames := fun _ => PyObj 2;
     PagerCities := fun _ _ => PyObj 3;
     getCityTable_ := fun _ _ => PyList [];
     fromDefault := PyObj 4;
     selectByRadius := fun _ _ _ _ => PyObj 5;
     getHistoricalEvents := fun _ _ _ _ _ => PyList [] |}.

Definition demo_grid : ShakeGrid :=
  {| getEventDict :=
       [("event_id", PyStr "us2000test");
        ("event_timestamp", PyObj 10);
        ("lat", PyFloat (10 # 1));
        ("lon", PyFloat (120 # 1));
        ("depth", PyFloat (15 # 1));
        ("magnitude", PyFloat (7 # 1));
        ("event_description", PyStr "Luzon")];
     getShakeDict :=
       [("shakemap_version", PyInt 1);
        ("code_version", PyStr "3.5");
        ("process_timestamp", PyObj 11)];
     getLayer := fun _ => PyObj 12 |}.

Definition demo_probs : pydict :=
  [("0-1", PyFloat (1 # 2));
   ("1-10", PyFloat (1 # 4));
   ("10-100", PyFloat (1 # 8));
   ("100-1000", PyFloat (1 # 16));
   ("1000-10000", PyFloat (1 # 32));
   ("10000-100000", PyFloat (1 # 64));
   ("100000-10000000", PyFloat (1 # 64))].

Definition demo_model (level : string) : LossModel :=
  {| getAlertLevel := fun _ => level;
     getCombinedG := fun _ => PyFloat (1 # 2);
     getProbabilities := fun _ _ => demo_probs;
     getLossRates := fun _ _ => repeat (PyFloat 0) 10 |}.

Definition demo_exposure (total : list Z) : ExposureTable :=
  [("PH", total); ("TotalExposure", total)].

Definition demo_econ_exposure (total : list Z) : ExposureTable :=
  [("PH", total); ("TotalEconomicExposure", total)].

(** [setInputs] and [setExposure] only. *)
Definition demo_two (total : list Z) : PagerData :=
  run (setExposure (demo_exposure total) (demo_econ_exposure total))
      (run (setInputs demo_grid (PyInt 1) (PyStr "us2000test")) __init__).

(** The four mandatory groups, without [setMapInfo]. *)
Definition demo_four (fatlevel ecolevel : string) (total : list Z)
  : PagerData :=
  run (setComments (PyStr "impact1") (PyStr "") (PyStr "structures")
                   (PyStr "history") (PyStr "secondary"))
      (run (setModelResults (demo_model fatlevel) (demo_model ecolevel)
                            [("PH", PyInt 3); ("TotalFatalities", PyInt 3)]
                            [("PH", PyInt 9); ("TotalDollars", PyInt 9)]
                            (PyInt 2) (PyInt 1) (PyInt 1))
           (demo_two total)).

(** All five groups. *)
Definition demo_registry (fatlevel ecolevel : string) (total : list Z)
  : PagerData :=
  run (setMapInfo (PyStr "cities1000.txt") (PyInt 11))
      (demo_four fatlevel ecolevel total).

Definition demo_total : list Z := [0; 0; 0; 0; 0; 0; 0; 0; 1200; 0].

(** The model attributes that [demo_four] and [demo_registry] hold. *)
Definition demo_model_attrs (fatlevel ecolevel : string) : ModelAttrs :=
  {| _fatmodel := demo_model fatlevel;
     _ecomodel := demo_model ecolevel;
     _fatmodel_results := [("PH", PyInt 3); ("TotalFatalities", PyInt 3)];
     _ecomodel_results := [("PH", PyInt 9); ("TotalDollars", PyInt 9)];
     _semi_loss := PyInt 2;
     _res_fat := PyInt 1;
     _non_res_fat := PyInt 1 |}.

(** Everything but [setComments]. *)
Definition demo_no_comments (total : list Z) : PagerData :=
  run (setMapInfo (PyStr "cities1000.txt") (PyInt 11))
      (run (setModelResults (demo_model "green") (demo_model "orange")
                            [("PH", PyInt 3); ("TotalFatalities", PyInt 3)]
                            [("PH", PyInt 9); ("TotalDollars", PyInt 9)]
                            (PyInt 2) (PyInt 1) (PyInt 1))
           (demo_two total)).

(** The ten sections in the order [validate] stores them. *)
Definition store_all (d : pydict) (ev pg sh al pe ee mr ct he cm : pyval)
  : pydict :=
  dict_set (dict_set (dict_set (dict_set (dict_set (dict_set (dict_set
  (dict_set (dict_set (dict_set d
    "event_info" ev) "pager" pg) "shake_info" sh) "alerts" al)
    "population_exposure" pe) "economic_exposure" ee) "model_results" mr)
    "city_table" ct) "historical_earthquakes" he) "comments" cm.

(** ** Notions used to state what [validate] and the setters keep *)

(** Two objects with the same flags and the same input attributes; the
    report and [_nmmi] may differ. *)
Definition same_inputs (a b : PagerData) : Prop :=
  _input_set a = _input_set b /\
  _exposure_set a = _exposure_set b /\
  _models_set a = _models_set b /\
  _comments_set a = _comments_set b /\
  input_attrs a = input_attrs b /\
  exposure_attrs a = exposure_attrs b /\
  comment_attrs a = comment_attrs b /\
  model_attrs a = model_attrs b /\
  map_attrs a = map_attrs b.

(** A method that leaves the flags and the input attributes alone,
    whether it returns or raises. *)
Definition keeps_inputs {A} (m : M A) : Prop :=
  forall self, same_inputs self (snd (m self)).


(** The keys of a finalized report, in order. *)
Definition report_keys : list string :=
  ["event_info"; "pager"; "shake_info"; "alerts"; "population_exposure";
   "economic_exposure"; "model_results"; "city_table";
   "historical_earthquakes"; "comments"].

(** The per-country record of a model result. *)
Definition loss_record (model : LossModel) (loss_key : string)
  (entry : string * pyval) : pyval :=
  PyDict [("country_code", PyStr (fst entry));
          ("rates", PyList (getLossRates model (fst entry) range_1_11));
          (loss_key, snd entry)].

Definition is_loss_country (total_key : string) (entry : string * pyval)
  : bool :=
  negb (String.eqb (fst entry) total_key).

(** The pager section for given readings of the inputs. *)
Definition pager_section (env : Collaborators) (i : InputAttrs)
  (versioncode origin_time lat lon : pyval) (alert_level : string)
  (maxmmi : Z) : pyval :=
  PyDict [("software_version", PyStr SOFTWARE_VERSION);
          ("processing_time", PyStr (strftime env (utcnow env) DATETIMEFMT));
          ("version_number", _pagerversion i);
          ("versioncode", versioncode);
          ("eventcode", _eventcode i);
          ("alert_level", PyStr alert_level);
          ("maxmmi", PyInt maxmmi);
          ("elapsed_time", getElapsedString env origin_time (utcnow env));
          ("local_time_string",
           PyStr (strftime env (get_local_time env origin_time lat lon)
                           DATETIMEFMT))].

(** The object as [validate] has it when it calls
    [_getHistoricalEarthquakes], and when it returns. *)
Definition before_history (s : PagerData)
  (ev pg sh al pe ee mr ct : pyval) (nmmi : Z) : PagerData :=
  set_section "city_table" ct
    (set_section "model_results" mr
       (set_section "economic_exposure" ee
          (set_section "population_exposure" pe
             (set_section "alerts" al
                (set_section "shake_info" sh
                   (set_section "pager" pg
                      (set_nmmi nmmi
                         (set_section "event_info" ev s)))))))).

Definition finalized (s : PagerData)
  (ev pg sh al pe ee mr ct he cm : pyval) (nmmi : Z) : PagerData :=
  set_section "comments" cm
    (set_section "historical_earthquakes" he
       (before_history s ev pg sh al pe ee mr ct nmmi)).

(** [setInputs] only. *)
Definition demo_inputs_only : PagerData :=
  run (setInputs demo_grid (PyInt 1) (PyStr "us2000test")) __init__.

(** * Properties *)

(** ** Dictionaries and outcomes *)

Lemma dict_get_set_same {V} (d : list (string * V)) k v :
  dict_get (dict_set d k v) k = Ok v.
Proof.
  induction d as [|[k' v'] d IH]; simpl.
  - now rewrite String.eqb_refl.
  - destruct (String.eqb k' k) eqn:E; simpl; rewrite E; auto.
Qed.

Lemma dict_get_set_other {V} (d : list (string * V)) k k' v :
  String.eqb k k' = false ->
  dict_get (dict_set d k v) k' = dict_get d k'.
Proof.
  intros N. induction d as [|[k0 v0] d IH]; simpl.
  - now rewrite N.
  - destruct (String.eqb k0 k) eqn:E; simpl.
    + apply String.eqb_eq in E. subst k0. now rewrite N.
    + destruct (String.eqb k0 k'); auto.
Qed.

Lemma rbind_ok {A B} (r : result A) (k : A -> result B) b :
  rbind r k = Ok b -> exists a, r = Ok a /\ k a = Ok b.
Proof. destruct r; simpl; intros H; [eauto | discriminate]. Qed.

Lemma mbind_ok {A B} (m : M A) (k : A -> M B) s b s' :
  mbind m k s = (Ok b, s') ->
  exists a s1, m s = (Ok a, s1) /\ k a s1 = (Ok b, s').
Proof.
  unfold mbind. destruct (m s) as [[a|e] s1]; intros H;
    [eauto | discriminate].
Qed.

Lemma reading_ok {A} (f : PagerData -> result A) s a s' :
  reading f s = (Ok a, s') -> f s = Ok a /\ s' = s.
Proof. unfold reading. intros [= -> ->]. auto. Qed.

Lemma assign_ok f s u s' : assign f s = (Ok u, s') -> s' = f s.
Proof. unfold assign. now intros [= _ <-]. Qed.

Lemma attr_ok {G A} name (g : option G) (proj : G -> A) a :
  attr name g proj = Ok a -> exists x, g = Some x /\ a = proj x.
Proof. destruct g; simpl; intros [= <-]. eauto. Qed.

(** Unfolds a method that returned, one statement at a time. *)
Ltac step_method :=
  match goal with
  | H : mbind _ _ _ = (Ok _, _) |- _ =>
      let a := fresh "a" in let s := fresh "s" in
      let H1 := fresh "H" in
      apply mbind_ok in H; destruct H as (a & s & H1 & H)
  | H : reading _ _ = (Ok _, _) |- _ =>
      apply reading_ok in H; destruct H as [H ?]; subst
  | H : assign _ _ = (Ok _, _) |- _ => apply assign_ok in H; subst
  | H : mret _ _ = (Ok _, _) |- _ => unfold mret in H; injection H as <- <-
  | H : rbind _ _ = Ok _ |- _ =>
      let a := fresh "a" in let H1 := fresh "H" in
      apply rbind_ok in H; destruct H as (a & H1 & H)
  | H : (let '(_, _) := ?p in _) _ = (Ok _, _) |- _ => destruct p
  end.

Lemma store_ok key (m : M pyval) s u s' :
  store key m s = (Ok u, s') ->
  exists v s1, m s = (Ok v, s1) /\ s' = set_section key v s1.
Proof.
  unfold store. intros H. repeat step_method. eauto.
Qed.

(** ** [_get_maxmmi] *)

Example range_9_down_ex : range_9_down = [9; 8; 7; 6; 5; 4; 3; 2; 1; 0]%nat.
Proof. reflexivity. Qed.

Example split_ex : split "-" "100-1000" = ["100"; "1000"].
Proof. reflexivity. Qed.

Example str_gt_ex :
  str_gt "yellow" "red" = true /\ str_gt "orange" "green" = true /\
  str_gt "red" "orange" = true /\ str_gt "yellow" "yellow" = false.
Proof. repeat split; reflexivity. Qed.

Lemma range_down_S n : rev (seq 0 (S n)) = n :: rev (seq 0 n).
Proof. now rewrite seq_S, rev_app_distr. Qed.

(** The scan over the buckets [n-1 .. 0]: it stops at the highest bucket
    that reaches [MINEXP], or runs to the end with [maxmmi] unbound. *)
Lemma maxmmi_loop_scan total n : forall exp,
  (n <= length total)%nat ->
  (exists i c,
      (i < n)%nat /\ nth_error total i = Some c /\ MINEXP <= c /\
      (forall j c', (i < j < n)%nat -> nth_error total j = Some c' ->
                    c' < MINEXP) /\
      maxmmi_loop total (rev (seq 0 n)) exp
      = Ok (Some (Z.of_nat i + 1), Some c))
  \/
  ((forall j c', (j < n)%nat -> nth_error total j = Some c' -> c' < MINEXP) /\
   exists e, maxmmi_loop total (rev (seq 0 n)) exp = Ok (None, e)).
Proof.
  induction n as [|n IH]; intros exp Hn.
  - right. split; [intros; lia | simpl; eauto].
  - rewrite range_down_S. simpl.
    destruct (nth_error total n) as [e|] eqn:En.
    2:{ apply nth_error_None in En. lia. }
    destruct (MINEXP <=? e) eqn:Ee.
    + left. exists n, e. apply Z.leb_le in Ee.
      repeat split; auto. intros; lia.
    + apply Z.leb_gt in Ee.
      destruct (IH (Some e)) as [(i & c & Hi & Hc & Hm & Hj & Hl)|[Hall [e' Hl]]];
        [lia | |].
      * left. exists i, c. repeat split; auto.
        intros j c' Hj' Hc'. destruct (Nat.eq_dec j n) as [->|];
          [congruence | apply (Hj j); auto; lia].
      * right. split; [|eauto].
        intros j c' Hj' Hc'. destruct (Nat.eq_dec j n) as [->|];
          [congruence | apply (Hall j); auto; lia].
Qed.

Lemma get_maxmmi_highest exposure total :
  dict_get exposure "TotalExposure" = Ok total ->
  length total = 10%nat ->
  (exists j c, nth_error total j = Some c /\ MINEXP <= c) ->
  exists i c,
    (i < 10)%nat /\ nth_error total i = Some c /\ MINEXP <= c /\
    (forall j c', (i < j)%nat -> nth_error total j = Some c' -> c' < MINEXP) /\
    _get_maxmmi exposure = Ok (Z.of_nat i + 1, c).
Proof.
  intros Ht Hlen (j & cj & Hj & Hcj).
  assert (Hj10 : (j < 10)%nat).
  { rewrite <- Hlen. apply nth_error_Some. congruence. }
  unfold _get_maxmmi, range_9_down. rewrite Ht. cbn [rbind].
  destruct (maxmmi_loop_scan total 10 None)
    as [(i & c & Hi & Hc & Hm & Hhi & Hl)|[Hall _]]; [lia | |].
  - exists i, c. rewrite Hl. cbn. repeat split; auto.
    intros k c' Hk Hc'. apply (Hhi k); auto. split; auto.
    rewrite <- Hlen. apply nth_error_Some. congruence.
  - specialize (Hall j cj Hj10 Hj). lia.
Qed.

Lemma get_maxmmi_below exposure total :
  dict_get exposure "TotalExposure" = Ok total ->
  length total = 10%nat ->
  (forall j c, nth_error total j = Some c -> c < MINEXP) ->
  _get_maxmmi exposure = Raise (UnboundLocalError "maxmmi").
Proof.
  intros Ht Hlen Hall.
  unfold _get_maxmmi, range_9_down. rewrite Ht. cbn [rbind].
  destruct (maxmmi_loop_scan total 10 None)
    as [(i & c & Hi & Hc & Hm & _)|[_ [e Hl]]]; [lia | |].
  - specialize (Hall i c Hc). lia.
  - rewrite Hl. reflexivity.
Qed.

(** ** What a [validate] that returned has done *)

Lemma setPager_ok env s pg s1 :
  _setPager env s = (Ok pg, s1) ->
  exists m x lfat leco al maxmmi nmmi,
    model_attrs s = Some m /\ exposure_attrs s = Some x /\
    dict_get levels (getAlertLevel (_fatmodel m) (_fatmodel_results m))
    = Ok lfat /\
    dict_get levels (getAlertLevel (_ecomodel m) (_ecomodel_results m))
    = Ok leco /\
    idict_get rlevels (Z.max lfat leco) = Ok al /\
    _get_maxmmi (_exposure x) = Ok (maxmmi, nmmi) /\
    s1 = set_nmmi nmmi s /\
    getitem pg "alert_level" = Ok (PyStr al) /\
    getitem pg "maxmmi" = Ok (PyInt maxmmi).
Proof.
  unfold _setPager. intros H. repeat step_method.
  unfold self_fatmodel, self_fatmodel_results, self_ecomodel,
    self_ecomodel_results, self_exposure in *.
  repeat match goal with
         | H : attr _ _ _ = Ok _ |- _ =>
             apply attr_ok in H; destruct H as (? & ? & ?)
         end.
  subst.
  repeat match goal with
         | H1 : ?g = Some ?a, H2 : ?g = Some ?b |- _ =>
             rewrite H1 in H2; injection H2 as <-
         end.
  do 7 eexists. repeat split; eauto.
Qed.

Lemma validate_ok env s s' :
  validate env s = (Ok tt, s') ->
  exists ev pg nmmi sh al pe ee mr ct he cm,
    _setEvent s = Ok ev /\
    _setPager env (set_section "event_info" ev s)
    = (Ok pg, set_nmmi nmmi (set_section "event_info" ev s)) /\
    _setShakeInfo s = Ok sh /\
    _setAlerts s = Ok al /\
    _setPopulationExposure s = Ok pe /\
    _setEconomicExposure s = Ok ee /\
    _setModelResults s = Ok mr /\
    _getCityTable env s = Ok ct /\
    _getComments s = Ok cm /\
    _pagerdict s' = store_all (_pagerdict s) ev pg sh al pe ee mr ct he cm /\
    _nmmi s' = Some nmmi.
Proof.
  unfold validate. intros H.
  step_method. step_method. cbv beta in H0. injection H0 as <-.
  destruct (_input_set s); simpl in H; [|discriminate].
  step_method. step_method. cbv beta in H0. injection H0 as <-.
  destruct (_exposure_set s); simpl in H; [|discriminate].
  step_method. step_method. cbv beta in H0. injection H0 as <-.
  destruct (_models_set s); simpl in H; [|discriminate].
  step_method. step_method. cbv beta in H0. injection H0 as <-.
  destruct (_comments_set s); simpl in H; [|discriminate].
  repeat match goal with
         | H : mbind (store _ _) _ _ = (Ok _, _) |- _ =>
             let a := fresh "u" in let s := fresh "s" in
             let H1 := fresh "St" in
             apply mbind_ok in H; destruct H as (a & s & H1 & H);
             apply store_ok in H1; destruct H1 as (? & ? & H1 & ->)
         end.
  apply store_ok in H. destruct H as (cm & ? & H & ->).
  repeat match goal with
         | H : reading _ _ = (Ok _, _) |- _ =>
             apply reading_ok in H; destruct H as [H ->]
         end.
  pose proof St0 as Hp. apply setPager_ok in Hp.
  destruct Hp as (m & x' & lf & le & al' & mx & nm & _ & _ & _ & _ & _ & _ & -> & _).
  do 11 eexists.
  repeat split; try eassumption; reflexivity.
Qed.

Ltac section_lookup :=
  unfold store_all;
  repeat (rewrite dict_get_set_other by reflexivity);
  apply dict_get_set_same.

Lemma store_all_pager d ev pg sh al pe ee mr ct he cm :
  dict_get (store_all d ev pg sh al pe ee mr ct he cm) "pager" = Ok pg.
Proof. section_lookup. Qed.

Lemma store_all_alerts d ev pg sh al pe ee mr ct he cm :
  dict_get (store_all d ev pg sh al pe ee mr ct he cm) "alerts" = Ok al.
Proof. section_lookup. Qed.

Lemma store_all_population d ev pg sh al pe ee mr ct he cm :
  dict_get (store_all d ev pg sh al pe ee mr ct he cm) "population_exposure"
  = Ok pe.
Proof. section_lookup. Qed.

Lemma store_all_economic d ev pg sh al pe ee mr ct he cm :
  dict_get (store_all d ev pg sh al pe ee mr ct he cm) "economic_exposure"
  = Ok ee.
Proof. section_lookup. Qed.

(** The pager section of a finalized report. *)
Lemma validate_pager env s s' :
  validate env s = (Ok tt, s') ->
  exists pg m x lfat leco al maxmmi nmmi,
    dict_get (_pagerdict s') "pager" = Ok pg /\
    model_attrs s = Some m /\ exposure_attrs s = Some x /\
    dict_get levels (getAlertLevel (_fatmodel m) (_fatmodel_results m))
    = Ok lfat /\
    dict_get levels (getAlertLevel (_ecomodel m) (_ecomodel_results m))
    = Ok leco /\
    idict_get rlevels (Z.max lfat leco) = Ok al /\
    _get_maxmmi (_exposure x) = Ok (maxmmi, nmmi) /\
    getitem pg "alert_level" = Ok (PyStr al) /\
    getitem pg "maxmmi" = Ok (PyInt maxmmi) /\
    _nmmi s' = Some nmmi.
Proof.
  intros H. apply validate_ok in H.
  destruct H as (ev & pg & nmmi & sh & al & pe & ee & mr & ct & he & cm &
                 _ & Hp & _ & _ & _ & _ & _ & _ & _ & Hd & Hn).
  apply setPager_ok in Hp.
  destruct Hp as (m & x & lf & le & lv & mx & nm & Hm & Hx & Hlf & Hle & Hlv
                  & Hmx & Hs & Hal & Hmm).
  assert (nm = nmmi) as ->.
  { apply (f_equal _nmmi) in Hs. simpl in Hs. congruence. }
  exists pg, m, x, lf, le, lv, mx, nmmi.
  rewrite Hd, store_all_pager. repeat split; auto.
Qed.

(** The four alert labels and their severities. *)
Lemma levels_cases l n :
  dict_get levels l = Ok n ->
  (l = "green" /\ n = 0) \/ (l = "yellow" /\ n = 1) \/
  (l = "orange" /\ n = 2) \/ (l = "red" /\ n = 3).
Proof.
  unfold levels. cbn [dict_get].
  repeat match goal with
         | |- context [String.eqb ?a l] =>
             let E := fresh "E" in
             destruct (String.eqb a l) eqn:E;
             [apply String.eqb_eq in E; subst l; intros [= <-]; tauto|]
         end.
  discriminate.
Qed.

(** What [_setAlerts] returns when it returns. *)
Lemma setAlerts_ok s m al :
  model_attrs s = Some m ->
  _setAlerts s = Ok al ->
  let fatlevel := getAlertLevel (_fatmodel m) (_fatmodel_results m) in
  let ecolevel := getAlertLevel (_ecomodel m) (_ecomodel_results m) in
  let fat_gvalue := getCombinedG (_fatmodel m) (_fatmodel_results m) in
  let eco_gvalue := getCombinedG (_ecomodel m) (_ecomodel_results m) in
  exists lfat leco rfat reco fbins ebins,
    dict_get leveldict fatlevel = Ok lfat /\
    idict_get rleveldict lfat = Ok rfat /\
    dict_get leveldict ecolevel = Ok leco /\
    idict_get rleveldict leco = Ok reco /\
    bins_loop (getProbabilities (_fatmodel m) (_fatmodel_results m) fat_gvalue)
              [] = Ok fbins /\
    bins_loop (getProbabilities (_ecomodel m) (_ecomodel_results m) eco_gvalue)
              [] = Ok ebins /\
    al = PyDict
           [("fatality",
             PyDict [("type", PyStr "fatality");
                     ("units", PyStr "fatalities");
                     ("gvalue", fat_gvalue);
                     ("summary", PyBool (str_gt rfat reco));
                     ("level", PyStr fatlevel);
                     ("bins", PyList fbins)]);
            ("economic",
             PyDict [("type", PyStr "economic");
                     ("units", PyStr "USD");
                     ("gvalue", eco_gvalue);
                     ("summary", PyBool (negb (str_gt rfat reco)));
                     ("level", PyStr ecolevel);
                     ("bins", PyList ebins)])].
Proof.
  intros Hm H. unfold _setAlerts in H.
  unfold self_fatmodel, self_fatmodel_results, self_ecomodel,
    self_ecomodel_results in H.
  rewrite Hm in H. simpl attr in H. cbn [rbind] in H.
  repeat step_method. injection H as <-.
  do 6 eexists. repeat split; eauto.
Qed.

(** The label that [rleveldict] gives back for a severity of [leveldict]. *)
Lemma rleveldict_leveldict l n r :
  dict_get leveldict l = Ok n -> idict_get rleveldict n = Ok r -> r = l.
Proof.
  intros Hl Hr. apply levels_cases in Hl.
  destruct Hl as [[-> ->]|[[-> ->]|[[-> ->]|[-> ->]]]];
    simpl in Hr; congruence.
Qed.

(** The alerts section of a finalized report. *)
Lemma validate_alerts env s s' :
  validate env s = (Ok tt, s') ->
  exists al, dict_get (_pagerdict s') "alerts" = Ok al /\ _setAlerts s = Ok al.
Proof.
  intros H. apply validate_ok in H.
  destruct H as (ev & pg & nmmi & sh & al & pe & ee & mr & ct & he & cm &
                 _ & _ & _ & Ha & _ & _ & _ & _ & _ & Hd & _).
  exists al. rewrite Hd, store_all_alerts. auto.
Qed.

(** ** Summary alert and summary group *)

(** C1, as amended.  In a finalized report exactly one of the two alert
    groups carries [summary = True]: the economic flag is the negation of
    the fatality flag.  When the two levels are equal the economic group
    is the summary one.  For every pair of levels other than yellow
    against orange or red, the fatality group is the summary one exactly
    when the fatality severity is strictly greater than the economic
    severity under green < yellow < orange < red, and the economic group
    otherwise. *)
Theorem summary_group_flags env s s' m lfat leco :
  model_attrs s = Some m ->
  dict_get leveldict (getAlertLevel (_fatmodel m) (_fatmodel_results m))
  = Ok lfat ->
  dict_get leveldict (getAlertLevel (_ecomodel m) (_ecomodel_results m))
  = Ok leco ->
  validate env s = (Ok tt, s') ->
  exists b,
    report s' ["alerts"; "fatality"; "summary"] = Ok (PyBool b) /\
    report s' ["alerts"; "economic"; "summary"] = Ok (PyBool (negb b)) /\
    (lfat = leco -> b = false) /\
    (~ (lfat = 1 /\ 2 <= leco) -> ~ (leco = 1 /\ 2 <= lfat) ->
     b = (leco <? lfat)).
Proof.
  intros Hm Hf He Hv.
  destruct (validate_alerts _ _ _ Hv) as (al & Hd & Ha).
  destruct (setAlerts_ok _ _ _ Hm Ha)
    as (lf & le & rf & re & fb & eb & Hlf & Hrf & Hle & Hre & _ & _ & ->).
  rewrite Hf in Hlf. injection Hlf as <-.
  rewrite He in Hle. injection Hle as <-.
  pose proof (rleveldict_leveldict _ _ _ Hf Hrf) as Erf.
  pose proof (rleveldict_leveldict _ _ _ He Hre) as Ere.
  exists (str_gt rf re).
  unfold report. cbn [lookup_path getitem]. rewrite Hd. cbn [rbind].
  split; [reflexivity|]. split; [reflexivity|].
  apply levels_cases in Hf, He. rewrite Erf, Ere.
  destruct Hf as [[-> ->]|[[-> ->]|[[-> ->]|[-> ->]]]];
    destruct He as [[-> ->]|[[-> ->]|[[-> ->]|[-> ->]]]];
    (split; [intros Heq; try discriminate Heq; reflexivity |
             intros N1 N2; try reflexivity; exfalso;
             (apply N1; split; [reflexivity | lia])
             || (apply N2; split; [reflexivity | lia])]).
Qed.

Lemma summary_group_flags_witness :
  exists b,
    report (run (validate demo_env) (demo_registry "green" "orange" demo_total))
           ["alerts"; "fatality"; "summary"] = Ok (PyBool b) /\
    report (run (validate demo_env) (demo_registry "green" "orange" demo_total))
           ["alerts"; "economic"; "summary"] = Ok (PyBool (negb b)) /\
    (0 = 2 -> b = false) /\
    (~ (0 = 1 /\ 2 <= 2) -> ~ (2 = 1 /\ 2 <= 0) -> b = (2 <? 0)).
Proof.
  apply (summary_group_flags demo_env
           (demo_registry "green" "orange" demo_total)
           (run (validate demo_env) (demo_registry "green" "orange" demo_total))
           (demo_model_attrs "green" "orange") 0 2);
    vm_compute; reflexivity.
Defined.

(** C1 as the specification states it fails on a tie: with both levels
    yellow the economic group, not the fatality group, is the summary. *)
Lemma summary_group_counterexample :
  ~ (forall env s s' m lfat leco,
        model_attrs s = Some m ->
        dict_get leveldict (getAlertLevel (_fatmodel m) (_fatmodel_results m))
        = Ok lfat ->
        dict_get leveldict (getAlertLevel (_ecomodel m) (_ecomodel_results m))
        = Ok leco ->
        validate env s = (Ok tt, s') ->
        report s' ["alerts"; "economic"; "summary"]
        = Ok (PyBool (lfat <? leco)) /\
        report s' ["alerts"; "fatality"; "summary"]
        = Ok (PyBool (negb (lfat <? leco)))).
Proof.
  intros H.
  assert (Hv : validate demo_env (demo_registry "yellow" "yellow" demo_total)
               = (Ok tt, run (validate demo_env)
                             (demo_registry "yellow" "yellow" demo_total)))
    by (vm_compute; reflexivity).
  destruct (H demo_env (demo_registry "yellow" "yellow" demo_total) _
              (demo_model_attrs "yellow" "yellow") 1 1
              eq_refl eq_refl eq_refl Hv) as [He _].
  vm_compute in He. discriminate He.
Qed.

(** On yellow against red the string comparison of [_setAlerts] marks the
    fatality group, the lower of the two. *)
Example summary_yellow_red :
  report (run (validate demo_env) (demo_registry "yellow" "red" demo_total))
         ["alerts"; "fatality"; "summary"] = Ok (PyBool true) /\
  report (run (validate demo_env) (demo_registry "yellow" "red" demo_total))
         ["pager"; "alert_level"] = Ok (PyStr "red").
Proof. split; vm_compute; reflexivity. Qed.

(** C2.  The alert level of the pager section, which [getSummaryAlert]
    returns after [validate], is the label of the larger of the two
    severities under green < yellow < orange < red. *)
Theorem alert_level_is_max env s s' m lfat leco :
  model_attrs s = Some m ->
  dict_get levels (getAlertLevel (_fatmodel m) (_fatmodel_results m))
  = Ok lfat ->
  dict_get levels (getAlertLevel (_ecomodel m) (_ecomodel_results m))
  = Ok leco ->
  validate env s = (Ok tt, s') ->
  exists al,
    dict_get levels al = Ok (Z.max lfat leco) /\
    al = (if lfat <? leco
          then getAlertLevel (_ecomodel m) (_ecomodel_results m)
          else getAlertLevel (_fatmodel m) (_fatmodel_results m)) /\
    report s' ["pager"; "alert_level"] = Ok (PyStr al) /\
    getSummaryAlert s' = Ok (PyStr al).
Proof.
  intros Hm Hf He Hv.
  destruct (validate_pager _ _ _ Hv)
    as (pg & m' & x & lf & le & al & mx & nm & Hd & Hm' & _ & Hlf & Hle & Hal
        & _ & Hpa & _ & _).
  rewrite Hm in Hm'. injection Hm' as <-.
  rewrite Hf in Hlf. injection Hlf as <-.
  rewrite He in Hle. injection Hle as <-.
  exists al.
  assert (Hrep : report s' ["pager"; "alert_level"] = Ok (PyStr al)).
  { unfold report. cbn [lookup_path getitem]. rewrite Hd. cbn [rbind].
    rewrite Hpa. reflexivity. }
  assert (Hget : getSummaryAlert s' = Ok (PyStr al)).
  { unfold getSummaryAlert. rewrite Hd. cbn [rbind]. exact Hpa. }
  apply levels_cases in Hf, He.
  destruct Hf as [[-> ->]|[[-> ->]|[[-> ->]|[-> ->]]]];
    destruct He as [[-> ->]|[[-> ->]|[[-> ->]|[-> ->]]]];
    simpl in Hal; injection Hal as <-; repeat split; auto.
Qed.

Lemma alert_level_is_max_witness :
  exists al,
    dict_get levels al = Ok (Z.max 1 3) /\
    al = (if 1 <? 3 then "red" else "yellow") /\
    report (run (validate demo_env) (demo_registry "yellow" "red" demo_total))
           ["pager"; "alert_level"] = Ok (PyStr al) /\
    getSummaryAlert
      (run (validate demo_env) (demo_registry "yellow" "red" demo_total))
    = Ok (PyStr al).
Proof.
  apply (alert_level_is_max demo_env
           (demo_registry "yellow" "red" demo_total)
           (run (validate demo_env) (demo_registry "yellow" "red" demo_total))
           (demo_model_attrs "yellow" "red") 1 3);
    vm_compute; reflexivity.
Defined.

(** ** Max-affected intensity *)

(** C3.  With at least one of the ten buckets at [MINEXP] or more,
    [_get_maxmmi] returns the index (1-10) of the highest such bucket and
    that bucket's count; a finalized report carries that index as
    [pager.maxmmi] and the object keeps the count in [_nmmi].  On the
    totals 0,0,0,0,0,0,0,0,999,1500 the result is (10, 1500). *)
Theorem maxmmi_is_highest_bucket :
  (forall exposure total,
      dict_get exposure "TotalExposure" = Ok total ->
      length total = 10%nat ->
      (exists j c, nth_error total j = Some c /\ MINEXP <= c) ->
      exists i c,
        (i < 10)%nat /\ nth_error total i = Some c /\ MINEXP <= c /\
        (forall j c', (i < j)%nat -> nth_error total j = Some c' ->
                      c' < MINEXP) /\
        _get_maxmmi exposure = Ok (Z.of_nat i + 1, c) /\
        (forall env s s' x,
            exposure_attrs s = Some x -> _exposure x = exposure ->
            validate env s = (Ok tt, s') ->
            report s' ["pager"; "maxmmi"] = Ok (PyInt (Z.of_nat i + 1)) /\
            _nmmi s' = Some c)) /\
  _get_maxmmi [("TotalExposure", [0; 0; 0; 0; 0; 0; 0; 0; 999; 1500])]
  = Ok (10, 1500).
Proof.
  split; [|reflexivity].
  intros exposure total Ht Hlen Hex.
  destruct (get_maxmmi_highest exposure total Ht Hlen Hex)
    as (i & c & Hi & Hc & Hm & Hhi & Hg).
  exists i, c.
  split; [exact Hi|]. split; [exact Hc|]. split; [exact Hm|].
  split; [exact Hhi|]. split; [exact Hg|].
  intros env s s' x Hx Hexp Hv.
  destruct (validate_pager _ _ _ Hv)
    as (pg & m & x' & lf & le & al & mx & nm & Hd & _ & Hx' & _ & _ & _
        & Hmx & _ & Hpm & Hn).
  rewrite Hx in Hx'. injection Hx' as <-. rewrite Hexp, Hg in Hmx.
  injection Hmx as <- <-.
  split; [|exact Hn].
  unfold report. cbn [lookup_path getitem]. rewrite Hd. cbn [rbind].
  rewrite Hpm. reflexivity.
Qed.

Lemma maxmmi_is_highest_bucket_witness :
  exists i c,
    (i < 10)%nat /\ nth_error demo_total i = Some c /\ MINEXP <= c /\
    (forall j c', (i < j)%nat -> nth_error demo_total j = Some c' ->
                  c' < MINEXP) /\
    _get_maxmmi (demo_exposure demo_total) = Ok (Z.of_nat i + 1, c) /\
    (forall env s s' x,
        exposure_attrs s = Some x ->
        _exposure x = demo_exposure demo_total ->
        validate env s = (Ok tt, s') ->
        report s' ["pager"; "maxmmi"] = Ok (PyInt (Z.of_nat i + 1)) /\
        _nmmi s' = Some c).
Proof.
  apply (proj1 maxmmi_is_highest_bucket (demo_exposure demo_total) demo_total).
  - reflexivity.
  - reflexivity.
  - exists 8%nat, 1200. split; [reflexivity | unfold MINEXP; lia].
Defined.

(** C4: the code departs from the claim.  With every bucket below
    [MINEXP] the loop ends without binding [maxmmi], so [_get_maxmmi]
    raises instead of returning bucket 1, and [setExposure], which calls
    it, raises as well. *)
Theorem maxmmi_unbound_below_threshold :
  _get_maxmmi [("TotalExposure", [0; 0; 0; 0; 0; 0; 0; 0; 0; 0])]
  = Raise (UnboundLocalError "maxmmi") /\
  _get_maxmmi [("TotalExposure", [999; 0; 0; 0; 0; 0; 0; 0; 0; 0])]
  = Raise (UnboundLocalError "maxmmi") /\
  fst (setExposure [("TotalExposure", [0; 0; 0; 0; 0; 0; 0; 0; 0; 0])]
                   [("TotalEconomicExposure", [0; 0; 0; 0; 0; 0; 0; 0; 0; 0])]
                   __init__)
  = Raise (UnboundLocalError "maxmmi").
Proof. repeat split; reflexivity. Qed.

(** What [setExposure] keeps of the pair: its second component, the
    count, under the name [_maxmmi]. *)
Lemma setExposure_caches_count exposure econ_exposure s s1 :
  setExposure exposure econ_exposure s = (Ok tt, s1) ->
  exists maxmmi nmmi,
    _get_maxmmi exposure = Ok (maxmmi, nmmi) /\
    option_map _maxmmi (exposure_attrs s1) = Some nmmi.
Proof.
  unfold setExposure. intros H. repeat step_method.
  cbv beta in H0. eauto.
Qed.

(** C5: the code departs from the claim.  [setExposure] unpacks the pair
    of [_get_maxmmi] the other way round from [_setPager]: it drops the
    index and keeps the count as [_maxmmi].  With 1200 people in bucket 9
    the cached [_maxmmi] is 1200, while [validate] computes index 9 and
    count 1200. *)
Theorem cached_maxmmi_is_the_count :
  _get_maxmmi (demo_exposure demo_total) = Ok (9, 1200) /\
  option_map _maxmmi
    (exposure_attrs (demo_registry "green" "orange" demo_total)) = Some 1200 /\
  fst (validate demo_env (demo_registry "green" "orange" demo_total)) = Ok tt /\
  report (run (validate demo_env) (demo_registry "green" "orange" demo_total))
         ["pager"; "maxmmi"] = Ok (PyInt 9) /\
  _nmmi (run (validate demo_env) (demo_registry "green" "orange" demo_total))
  = Some 1200.
Proof. repeat split; vm_compute; reflexivity. Qed.

(** ** Mandatory groups *)

(** A missing group makes [validate] stop at its guard with the object
    as it was.  The guard's [raise] names a class that the module does
    not have, so the error is a [NameError] whichever group is missing. *)
Lemma validate_guard_raises env s :
  _input_set s && _exposure_set s && _models_set s && _comments_set s = false ->
  validate env s = (Raise (NameError "PagerException"), s).
Proof.
  intros H. unfold validate, mbind, reading, raising, raise, PagerException.
  destruct (_input_set s); cbn [negb]; [|reflexivity].
  destruct (_exposure_set s); cbn [negb]; [|reflexivity].
  destruct (_models_set s); cbn [negb]; [|reflexivity].
  destruct (_comments_set s); cbn [negb]; [discriminate H | reflexivity].
Qed.

(** C6: the code departs from the claim.  On a registry where everything
    but [setComments] was called, on one with only the inputs and the
    exposure, and on a fresh one, [validate] stops at a guard and stores
    nothing, but the error it raises is a [NameError] for
    [PagerException], which names no group. *)
Theorem validate_guard_name_error :
  validate demo_env (demo_no_comments demo_total)
  = (Raise (NameError "PagerException"), demo_no_comments demo_total) /\
  validate demo_env (demo_two demo_total)
  = (Raise (NameError "PagerException"), demo_two demo_total) /\
  validate demo_env __init__ = (Raise (NameError "PagerException"), __init__).
Proof. repeat split; vm_compute; reflexivity. Qed.

(** ** Accessors before finalize *)

Lemma pre_finalize_empty s : pre_finalize s -> _pagerdict s = [].
Proof.
  induction 1 as [|m s Hm Hs IH]; [reflexivity|].
  destruct Hm; unfold run; simpl; auto.
  unfold setExposure, mbind, reading.
  destruct (_get_maxmmi e) as [[? ?]|]; simpl; auto.
Qed.




(** ** Map information *)

(** Without [setMapInfo], [validate] cannot return. *)
Lemma validate_needs_mapinfo env s :
  map_attrs s = None -> fst (validate env s) <> Ok tt.
Proof.
  intros Hm Hv.
  destruct (validate env s) as [r s'] eqn:E. simpl in Hv. subst r.
  apply validate_ok in E.
  destruct E as (ev & pg & nmmi & sh & al & pe & ee & mr & ct & he & cm &
                 _ & _ & _ & _ & _ & _ & _ & Hc & _).
  unfold _getCityTable, self_city_file in Hc. rewrite Hm in Hc.
  discriminate Hc.
Qed.

(** C10: the code departs from the claim.  With the four mandatory groups
    set and [setMapInfo] never called, [validate] passes its checks, stores
    seven sections and then raises an [AttributeError] in [_getCityTable],
    which reads [_city_file]. *)
Theorem validate_without_mapinfo :
  fst (validate demo_env (demo_four "green" "orange" demo_total))
  = Raise (AttributeError "_city_file") /\
  keys (_pagerdict (run (validate demo_env)
                        (demo_four "green" "orange" demo_total)))
  = ["event_info"; "pager"; "shake_info"; "alerts"; "population_exposure";
     "economic_exposure"; "model_results"] /\
  fst (validate demo_env (demo_registry "green" "orange" demo_total)) = Ok tt.
Proof. repeat split; vm_compute; reflexivity. Qed.

(** ** Probability bins *)

Lemma unpack2_ok {A} (l : list A) a b : unpack2 l = Ok (a, b) -> l = [a; b].
Proof.
  destruct l as [|x [|y [|z l]]]; simpl; try discriminate.
  now intros [= -> ->].
Qed.

(** One bin per item of the mapping, in the mapping's order, appended to
    the bins collected so far. *)
Lemma bins_loop_ok items : forall bins out,
  bins_loop items bins = Ok out ->
  exists bs,
    out = (bins ++ bs)%list /\
    Forall2 (fun item bin =>
               exists color rmin rmax,
                 dict_get colors (fst item) = Ok color /\
                 split "-" (fst item) = [rmin; rmax] /\
                 bin = PyDict [("color", PyStr color);
                               ("min", PyStr rmin);
                               ("max", PyStr rmax);
                               ("probability", snd item)])
            items bs.
Proof.
  induction items as [|[prange pvalue] items IH]; intros bins out H.
  - simpl in H. injection H as <-. exists []. now rewrite app_nil_r.
  - cbn [bins_loop] in H.
    apply rbind_ok in H. destruct H as (color & Hc & H).
    apply rbind_ok in H. destruct H as ([rmin rmax] & Hs & H).
    apply unpack2_ok in Hs. apply IH in H. destruct H as (bs & -> & HF).
    eexists. rewrite <- app_assoc. split; [reflexivity|].
    constructor; [|exact HF]. exists color, rmin, rmax. auto.
Qed.

(** On the seven labels, [colors] and the split of the label give the
    bin of [range_table]. *)
Lemma table_bin_agrees prange pvalue color rmin rmax :
  In prange range_labels ->
  dict_get colors prange = Ok color ->
  split "-" prange = [rmin; rmax] ->
  table_bin prange pvalue
  = Ok (PyDict [("color", PyStr color);
                ("min", PyStr rmin);
                ("max", PyStr rmax);
                ("probability", pvalue)]).
Proof.
  intros Hin Hc Hs. unfold range_labels, keys in Hin. simpl in Hin.
  repeat destruct Hin as [<-|Hin]; try contradiction;
    vm_compute in Hc; vm_compute in Hs;
    injection Hc as <-; injection Hs as <- <-; reflexivity.
Qed.

Lemma bins_of_group probs bins :
  Permutation (keys probs) range_labels ->
  bins_loop probs [] = Ok bins ->
  length bins = 7%nat /\
  Forall2 (fun item bin => table_bin (fst item) (snd item) = Ok bin)
          probs bins.
Proof.
  intros Hp Hb. apply bins_loop_ok in Hb. destruct Hb as (bs & -> & HF).
  cbn [app]. split.
  - rewrite <- (Forall2_length HF).
    apply Permutation_length in Hp. unfold keys in Hp.
    rewrite length_map in Hp. exact Hp.
  - assert (Hin : forall item, In item probs -> In (fst item) range_labels).
    { intros item Hi. eapply Permutation_in; [exact Hp|].
      unfold keys. now apply in_map. }
    clear Hp. induction HF as [|item bin items bs' Hh HF IH];
      constructor.
    + destruct Hh as (color & rmin & rmax & Hc & Hs & ->).
      apply table_bin_agrees; auto. apply Hin. now left.
    + apply IH. intros i Hi. apply Hin. now right.
Qed.

(** C8, as amended.  When the probability mapping of a model carries
    exactly the seven range labels, the group's [bins] list in a finalized
    report has seven entries, one per item of the mapping and in its order;
    each has the colour of the fixed mapping, the model's probability for
    the range, and as [min] and [max] the two pieces of the label on
    either side of the dash, kept as text: the label 100-1000 gives the
    strings 100 and 1000. *)
Theorem bins_follow_table env s s' m :
  model_attrs s = Some m ->
  validate env s = (Ok tt, s') ->
  let fatprobs :=
    getProbabilities (_fatmodel m) (_fatmodel_results m)
                     (getCombinedG (_fatmodel m) (_fatmodel_results m)) in
  let ecoprobs :=
    getProbabilities (_ecomodel m) (_ecomodel_results m)
                     (getCombinedG (_ecomodel m) (_ecomodel_results m)) in
  (Permutation (keys fatprobs) range_labels ->
   exists bins,
     report s' ["alerts"; "fatality"; "bins"] = Ok (PyList bins) /\
     length bins = 7%nat /\
     Forall2 (fun item bin => table_bin (fst item) (snd item) = Ok bin)
             fatprobs bins) /\
  (Permutation (keys ecoprobs) range_labels ->
   exists bins,
     report s' ["alerts"; "economic"; "bins"] = Ok (PyList bins) /\
     length bins = 7%nat /\
     Forall2 (fun item bin => table_bin (fst item) (snd item) = Ok bin)
             ecoprobs bins).
Proof.
  intros Hm Hv fatprobs ecoprobs.
  destruct (validate_alerts _ _ _ Hv) as (al & Hd & Ha).
  destruct (setAlerts_ok _ _ _ Hm Ha)
    as (lf & le & rf & re & fb & eb & _ & _ & _ & _ & Hfb & Heb & ->).
  split; intros Hp.
  - exists fb. split; [|now apply bins_of_group].
    unfold report. cbn [lookup_path getitem]. rewrite Hd. reflexivity.
  - exists eb. split; [|now apply bins_of_group].
    unfold report. cbn [lookup_path getitem]. rewrite Hd. reflexivity.
Qed.

Lemma bins_follow_table_witness :
  (exists bins,
     report (run (validate demo_env) (demo_registry "green" "orange" demo_total))
            ["alerts"; "fatality"; "bins"] = Ok (PyList bins) /\
     length bins = 7%nat /\
     Forall2 (fun item bin => table_bin (fst item) (snd item) = Ok bin)
             demo_probs bins) /\
  (exists bins,
     report (run (validate demo_env) (demo_registry "green" "orange" demo_total))
            ["alerts"; "economic"; "bins"] = Ok (PyList bins) /\
     length bins = 7%nat /\
     Forall2 (fun item bin => table_bin (fst item) (snd item) = Ok bin)
             demo_probs bins).
Proof.
  assert (Hv : validate demo_env (demo_registry "green" "orange" demo_total)
               = (Ok tt, run (validate demo_env)
                             (demo_registry "green" "orange" demo_total)))
    by (vm_compute; reflexivity).
  pose proof (bins_follow_table demo_env
                (demo_registry "green" "orange" demo_total) _
                (demo_model_attrs "green" "orange") eq_refl Hv) as [Hf He].
  split; [apply Hf | apply He]; apply Permutation_refl.
Defined.

(** C8 as the specification states it fails: the bin of the label
    100-1000 carries the strings, not the numbers 100 and 1000, and no
    number at all. *)
Lemma bins_bounds_counterexample :
  exists bins bin,
    report (run (validate demo_env) (demo_registry "green" "orange" demo_total))
           ["alerts"; "fatality"; "bins"] = Ok (PyList bins) /\
    nth_error bins 3 = Some bin /\
    getitem bin "color" = Ok (PyStr "orange") /\
    getitem bin "min" = Ok (PyStr "100") /\
    getitem bin "max" = Ok (PyStr "1000") /\
    getitem bin "min" <> Ok (PyInt 100) /\
    getitem bin "max" <> Ok (PyInt 1000) /\
    (forall n, getitem bin "min" <> Ok (PyInt n)) /\
    (forall q, getitem bin "min" <> Ok (PyFloat q)).
Proof.
  eexists. eexists.
  split; [vm_compute; reflexivity|].
  split; [reflexivity|].
  repeat split; try reflexivity; intros; discriminate.
Qed.

(** ** Exposure sections *)

Lemma country_exposures_loop_ok total_key items : forall acc,
  country_exposures_loop total_key items acc
  = (acc ++ map country_record (filter (is_country total_key) items))%list.
Proof.
  induction items as [|[ccode exparray] items IH]; intros acc; simpl.
  - now rewrite app_nil_r.
  - unfold is_country at 1. simpl fst.
    destruct (String.eqb ccode total_key); simpl.
    + apply IH.
    + rewrite IH, <- app_assoc. reflexivity.
Qed.

Lemma filter_not_key (table : ExposureTable) k :
  ~ In k (keys table) -> filter (is_country k) table = table.
Proof.
  induction table as [|[c xs] table IH]; simpl; intros N; [reflexivity|].
  unfold is_country at 1. simpl fst.
  destruct (String.eqb c k) eqn:E.
  - apply String.eqb_eq in E. tauto.
  - simpl. f_equal. apply IH. tauto.
Qed.

(** A table with distinct keys that has the total key loses exactly that
    entry. *)
Lemma countries_length (table : ExposureTable) k total :
  NoDup (keys table) -> dict_get table k = Ok total ->
  S (length (filter (is_country k) table)) = length table.
Proof.
  induction table as [|[c xs] table IH]; simpl; intros Hn Hg;
    [discriminate|].
  inversion Hn as [|? ? Hc Hn']; subst.
  unfold is_country at 1. simpl fst.
  destruct (String.eqb c k) eqn:E; simpl.
  - apply String.eqb_eq in E. subst c.
    now rewrite filter_not_key.
  - f_equal. now apply IH.
Qed.

Lemma countries_exclude_total (table : ExposureTable) k :
  ~ In k (keys (filter (is_country k) table)).
Proof.
  unfold keys. intros H. apply in_map_iff in H.
  destruct H as ([c xs] & Hc & Hin). simpl in Hc. subst c.
  apply filter_In in Hin. destruct Hin as [_ Hin].
  unfold is_country in Hin. simpl in Hin.
  now rewrite String.eqb_refl in Hin.
Qed.

Lemma countries_complete (table : ExposureTable) k c xs :
  In (c, xs) table -> c <> k -> In (c, xs) (filter (is_country k) table).
Proof.
  intros Hin Hc. apply filter_In. split; [exact Hin|].
  unfold is_country. simpl. apply negb_true_iff. now apply String.eqb_neq.
Qed.

(** The exposure sections of a finalized report. *)
Lemma validate_exposures env s s' :
  validate env s = (Ok tt, s') ->
  report s' ["population_exposure"] = _setPopulationExposure s /\
  report s' ["economic_exposure"] = _setEconomicExposure s.
Proof.
  intros H. apply validate_ok in H.
  destruct H as (ev & pg & nmmi & sh & al & pe & ee & mr & ct & he & cm &
                 _ & _ & _ & _ & Hp & He & _ & _ & _ & Hd & _).
  unfold report. cbn [lookup_path getitem]. rewrite Hd.
  rewrite store_all_population, store_all_economic, Hp, He.
  split; reflexivity.
Qed.

(** C9.  For an exposure table whose keys are the total key and [n]
    distinct country codes, the reshaped section has [mmi] 1 to 10, the
    total-key sequence unchanged as [aggregated_exposure], and a
    per-country list of [n] records, one for each entry of the table
    other than the total key, in the table's order, each with the
    entry's code and sequence; the total key is not among them.  This
    holds for the population table with key TotalExposure and for the
    economic table with key TotalEconomicExposure, and these sections
    are what a finalized report holds. *)
Theorem exposure_reshaping s x total etotal n en :
  exposure_attrs s = Some x ->
  NoDup (keys (_exposure x)) ->
  dict_get (_exposure x) "TotalExposure" = Ok total ->
  length (_exposure x) = S n ->
  NoDup (keys (_econ_exposure x)) ->
  dict_get (_econ_exposure x) "TotalEconomicExposure" = Ok etotal ->
  length (_econ_exposure x) = S en ->
  let countries := filter (is_country "TotalExposure") (_exposure x) in
  let ecountries :=
    filter (is_country "TotalEconomicExposure") (_econ_exposure x) in
  (_setPopulationExposure s
   = Ok (PyDict
           [("mmi", PyList (map PyInt [1; 2; 3; 4; 5; 6; 7; 8; 9; 10]));
            ("aggregated_exposure", PyList (map PyInt total));
            ("country_exposures", PyList (map country_record countries))]) /\
   length countries = n /\
   ~ In "TotalExposure" (keys countries) /\
   (forall c xs, In (c, xs) (_exposure x) -> c <> "TotalExposure" ->
                 In (c, xs) countries)) /\
  (_setEconomicExposure s
   = Ok (PyDict
           [("mmi", PyList (map PyInt [1; 2; 3; 4; 5; 6; 7; 8; 9; 10]));
            ("aggregated_exposure", PyList (map PyInt etotal));
            ("country_exposures", PyList (map country_record ecountries))]) /\
   length ecountries = en /\
   ~ In "TotalEconomicExposure" (keys ecountries) /\
   (forall c xs, In (c, xs) (_econ_exposure x) ->
                 c <> "TotalEconomicExposure" -> In (c, xs) ecountries)) /\
  (forall env s',
      validate env s = (Ok tt, s') ->
      report s' ["population_exposure"] = _setPopulationExposure s /\
      report s' ["economic_exposure"] = _setEconomicExposure s).
Proof.
  intros Hx Hn Ht Hl Hen Het Hel countries ecountries.
  split; [|split].
  - split; [|split; [|split]].
    + unfold _setPopulationExposure, self_exposure. rewrite Hx.
      cbn [attr rbind]. rewrite Ht. cbn [rbind].
      rewrite country_exposures_loop_ok. reflexivity.
    + pose proof (countries_length _ _ _ Hn Ht) as Hc.
      fold countries in Hc. lia.
    + apply countries_exclude_total.
    + intros c xs. apply countries_complete.
  - split; [|split; [|split]].
    + unfold _setEconomicExposure, self_econ_exposure. rewrite Hx.
      cbn [attr rbind]. rewrite Het. cbn [rbind].
      rewrite country_exposures_loop_ok. reflexivity.
    + pose proof (countries_length _ _ _ Hen Het) as Hc.
      fold ecountries in Hc. lia.
    + apply countries_exclude_total.
    + intros c xs. apply countries_complete.
  - intros env s'. apply validate_exposures.
Qed.

Lemma exposure_reshaping_witness :
  _setPopulationExposure (demo_registry "green" "orange" demo_total)
  = Ok (PyDict
          [("mmi", PyList (map PyInt [1; 2; 3; 4; 5; 6; 7; 8; 9; 10]));
           ("aggregated_exposure", PyList (map PyInt demo_total));
           ("country_exposures",
            PyList [PyDict [("country_code", PyStr "PH");
                            ("exposure", PyList (map PyInt demo_total))]])]) /\
  _setEconomicExposure (demo_registry "green" "orange" demo_total)
  = Ok (PyDict
          [("mmi", PyList (map PyInt [1; 2; 3; 4; 5; 6; 7; 8; 9; 10]));
           ("aggregated_exposure", PyList (map PyInt demo_total));
           ("country_exposures",
            PyList [PyDict [("country_code", PyStr "PH");
                            ("exposure", PyList (map PyInt demo_total))]])]).
Proof.
  assert (Hn : NoDup ["PH"; "TotalExposure"]).
  { repeat constructor; simpl; intuition discriminate. }
  assert (Hen : NoDup ["PH"; "TotalEconomicExposure"]).
  { repeat constructor; simpl; intuition discriminate. }
  destruct (exposure_reshaping
              (demo_registry "green" "orange" demo_total)
              {| _maxmmi := 1200;
                 _exposure := demo_exposure demo_total;
                 _econ_exposure := demo_econ_exposure demo_total |}
              demo_total demo_total 1 1
              eq_refl Hn eq_refl eq_refl Hen eq_refl eq_refl)
    as [[Hp _] [[He _] _]].
  split; [exact Hp | exact He].
Defined.

(** * Further properties of the module *)

(** ** [_get_maxmmi]: what a result means, and how it fails *)

Lemma maxmmi_loop_break total idx : forall exp m e,
  maxmmi_loop total idx exp = Ok (Some m, e) ->
  exists i c,
    In i idx /\ m = Z.of_nat i + 1 /\ e = Some c /\
    nth_error total i = Some c /\ MINEXP <= c.
Proof.
  induction idx as [|i idx IH]; intros exp m e H; simpl in H.
  - discriminate.
  - destruct (nth_error total i) as [c|] eqn:Ec; [|discriminate].
    destruct (MINEXP <=? c) eqn:El.
    + injection H as <- <-. apply Z.leb_le in El.
      exists i, c. repeat split; auto. now left.
    + apply IH in H. destruct H as (j & c' & Hj & H).
      exists j, c'. split; [now right | exact H].
Qed.

(** X1.  Whenever [_get_maxmmi] returns [(maxmmi, count)], the table has
    a total entry of at least ten buckets, [maxmmi] is between 1 and 10,
    [count] is the count of bucket [maxmmi] and is at least [MINEXP], and
    every higher bucket up to the tenth is below [MINEXP]. *)
Theorem get_maxmmi_sound exposure maxmmi count :
  _get_maxmmi exposure = Ok (maxmmi, count) ->
  exists total i,
    dict_get exposure "TotalExposure" = Ok total /\
    (10 <= length total)%nat /\
    maxmmi = Z.of_nat i + 1 /\ 1 <= maxmmi <= 10 /\
    nth_error total i = Some count /\ MINEXP <= count /\
    (forall j c, (i < j < 10)%nat -> nth_error total j = Some c ->
                 c < MINEXP).
Proof.
  unfold _get_maxmmi. intros H.
  apply rbind_ok in H. destruct H as (total & Ht & H).
  apply rbind_ok in H. destruct H as ([m e] & Hl & H).
  apply rbind_ok in H. destruct H as (m' & Hm & H).
  apply rbind_ok in H. destruct H as (e' & He & H).
  injection H as <- <-.
  destruct m as [m|]; [|discriminate]. injection Hm as <-.
  destruct e as [e|]; [|discriminate]. injection He as <-.
  assert (Hlen : (10 <= length total)%nat).
  { unfold range_9_down in Hl. rewrite range_down_S in Hl.
    cbn [maxmmi_loop] in Hl.
    destruct (nth_error total 9) eqn:E9; [|discriminate].
    assert (nth_error total 9 <> None) as N by congruence.
    apply nth_error_Some in N. lia. }
  unfold range_9_down in Hl.
  destruct (maxmmi_loop_scan total 10 None Hlen)
    as [(i & c & Hi & Hc & Hge & Hhi & Hs)|[_ [e0 Hs]]];
    rewrite Hs in Hl; [|discriminate].
  injection Hl as <- <-.
  exists total, i. repeat split; auto; lia.
Qed.

Lemma get_maxmmi_sound_witness :
  exists total i,
    dict_get (demo_exposure demo_total) "TotalExposure" = Ok total /\
    (10 <= length total)%nat /\
    9 = Z.of_nat i + 1 /\ 1 <= 9 <= 10 /\
    nth_error total i = Some 1200 /\ MINEXP <= 1200 /\
    (forall j c, (i < j < 10)%nat -> nth_error total j = Some c ->
                 c < MINEXP).
Proof.
  apply (get_maxmmi_sound (demo_exposure demo_total) 9 1200). reflexivity.
Defined.

Lemma dict_get_absent {V} (d : list (string * V)) k :
  ~ In k (keys d) -> dict_get d k = Raise (KeyError (PyStr k)).
Proof.
  induction d as [|[k' v] d IH]; simpl; intros N; [reflexivity|].
  destruct (String.eqb k' k) eqn:E.
  - apply String.eqb_eq in E. tauto.
  - apply IH. tauto.
Qed.

(** X2.  [_get_maxmmi] raises a [KeyError] for TotalExposure on a table
    without that key, and an [IndexError] on a total entry of fewer than
    ten buckets, whatever the counts are. *)
Theorem get_maxmmi_malformed exposure :
  (~ In "TotalExposure" (keys exposure) ->
   _get_maxmmi exposure = Raise (KeyError (PyStr "TotalExposure"))) /\
  (forall total,
      dict_get exposure "TotalExposure" = Ok total ->
      (length total < 10)%nat ->
      _get_maxmmi exposure = Raise IndexError).
Proof.
  split.
  - intros N. unfold _get_maxmmi. now rewrite dict_get_absent.
  - intros total Ht Hlen. unfold _get_maxmmi, range_9_down.
    rewrite Ht, range_down_S. cbn [rbind maxmmi_loop].
    assert (nth_error total 9 = None) as -> by (apply nth_error_None; lia).
    reflexivity.
Qed.

Lemma get_maxmmi_malformed_witness :
  _get_maxmmi [("PH", demo_total)] = Raise (KeyError (PyStr "TotalExposure")) /\
  _get_maxmmi [("TotalExposure", [5000; 5000; 5000])] = Raise IndexError.
Proof.
  split.
  - apply (proj1 (get_maxmmi_malformed [("PH", demo_total)])).
    simpl. intuition discriminate.
  - apply (proj2 (get_maxmmi_malformed [("TotalExposure", [5000; 5000; 5000])])
                 [5000; 5000; 5000]).
    + reflexivity.
    + simpl. lia.
Defined.

Lemma maxmmi_loop_ext t1 t2 idx : forall exp,
  (forall i, In i idx -> nth_error t1 i = nth_error t2 i) ->
  maxmmi_loop t1 idx exp = maxmmi_loop t2 idx exp.
Proof.
  induction idx as [|i idx IH]; intros exp H; [reflexivity|].
  cbn [maxmmi_loop]. rewrite (H i) by now left.
  destruct (nth_error t2 i); [|reflexivity].
  destruct (MINEXP <=? z); [reflexivity|].
  apply IH. intros j Hj. apply H. now right.
Qed.

(** X3.  Only the first ten buckets of the total entry are read: two
    tables whose total entries agree on their first ten buckets give the
    same result, so buckets after the tenth are ignored. *)
Theorem get_maxmmi_first_ten exposure exposure' total total' :
  dict_get exposure "TotalExposure" = Ok total ->
  dict_get exposure' "TotalExposure" = Ok total' ->
  firstn 10 total = firstn 10 total' ->
  _get_maxmmi exposure = _get_maxmmi exposure'.
Proof.
  intros Ht Ht' Hf. unfold _get_maxmmi. rewrite Ht, Ht'. cbn [rbind].
  rewrite (maxmmi_loop_ext total total'); [reflexivity|].
  intros i Hi. unfold range_9_down in Hi. apply in_rev, in_seq in Hi.
  assert (E : nth_error (firstn 10 total) i = nth_error (firstn 10 total') i)
    by now rewrite Hf.
  rewrite !nth_error_firstn in E.
  assert (Nat.ltb i 10 = true) as Hlt by (apply Nat.ltb_lt; lia).
  now rewrite Hlt in E.
Qed.

Lemma get_maxmmi_first_ten_witness :
  _get_maxmmi [("TotalExposure", (demo_total ++ [7000; 8000])%list)]
  = _get_maxmmi (demo_exposure demo_total).
Proof.
  apply (get_maxmmi_first_ten _ _ ((demo_total ++ [7000; 8000])%list) demo_total);
    reflexivity.
Defined.

(** ** Setters *)

(** X4.  When [_get_maxmmi] raises on the population table, [setExposure]
    raises the same error and leaves the object exactly as it was: no
    table is stored and the exposure flag is not set, so a [validate]
    that follows on an object that had its inputs but no exposure stops
    at the exposure guard, where it raises a [NameError] for
    [PagerException], and changes nothing. *)
Theorem setExposure_failure env exposure econ_exposure s err :
  _get_maxmmi exposure = Raise err ->
  setExposure exposure econ_exposure s = (Raise err, s) /\
  (_input_set s = true -> _exposure_set s = false ->
   validate env (run (setExposure exposure econ_exposure) s)
   = (Raise (NameError "PagerException"), s)).
Proof.
  intros H.
  assert (E : setExposure exposure econ_exposure s = (Raise err, s)).
  { unfold setExposure, mbind, reading. now rewrite H. }
  split; [exact E|]. intros Hi He.
  unfold run. rewrite E. cbn [snd].
  unfold validate, mbind, reading, raising, raise, PagerException.
  cbv beta iota. rewrite Hi. cbv beta iota delta [negb].
  rewrite He. reflexivity.
Qed.

Lemma setExposure_failure_witness :
  setExposure [("TotalExposure", [5; 5; 5])] [] demo_inputs_only
  = (Raise IndexError, demo_inputs_only) /\
  validate demo_env
    (run (setExposure [("TotalExposure", [5; 5; 5])] []) demo_inputs_only)
  = (Raise (NameError "PagerException"), demo_inputs_only).
Proof.
  destruct (setExposure_failure demo_env [("TotalExposure", [5; 5; 5])] []
                                demo_inputs_only IndexError eq_refl)
    as [H1 H2].
  split; [exact H1 | apply H2; reflexivity].
Defined.

(** X5.  The setters of different groups commute: the object they leave
    does not depend on the order in which two of them are called.  This
    includes [setExposure], whether it returns or raises. *)
Theorem setters_commute s g v c e ee i1 i2 sc hc xc fm em fr er sl rf nrf
        cf mc :
  let inputs := setInputs g v c in
  let exposure := setExposure e ee in
  let comments := setComments i1 i2 sc hc xc in
  let models := setModelResults fm em fr er sl rf nrf in
  let mapinfo := setMapInfo cf mc in
  run inputs (run exposure s) = run exposure (run inputs s) /\
  run inputs (run comments s) = run comments (run inputs s) /\
  run inputs (run models s) = run models (run inputs s) /\
  run inputs (run mapinfo s) = run mapinfo (run inputs s) /\
  run exposure (run comments s) = run comments (run exposure s) /\
  run exposure (run models s) = run models (run exposure s) /\
  run exposure (run mapinfo s) = run mapinfo (run exposure s) /\
  run comments (run models s) = run models (run comments s) /\
  run comments (run mapinfo s) = run mapinfo (run comments s) /\
  run models (run mapinfo s) = run mapinfo (run models s).
Proof.
  cbv zeta. unfold run, setExposure, mbind, reading.
  destruct (_get_maxmmi e) as [[? ?]|]; repeat split; reflexivity.
Qed.

(** ** What [validate] leaves alone *)

Lemma same_inputs_refl s : same_inputs s s.
Proof. unfold same_inputs. tauto. Qed.

Lemma same_inputs_sym a b : same_inputs a b -> same_inputs b a.
Proof. unfold same_inputs. intuition congruence. Qed.

Lemma same_inputs_trans a b c :
  same_inputs a b -> same_inputs b c -> same_inputs a c.
Proof. unfold same_inputs. intuition congruence. Qed.

Lemma same_inputs_set_section key v s : same_inputs s (set_section key v s).
Proof. unfold same_inputs. simpl. tauto. Qed.

Lemma same_inputs_set_nmmi n s : same_inputs s (set_nmmi n s).
Proof. unfold same_inputs. simpl. tauto. Qed.

Lemma keeps_mret {A} (a : A) : keeps_inputs (mret a).
Proof. intros s. apply same_inputs_refl. Qed.

Lemma keeps_raise {A} e : keeps_inputs (@raise A e).
Proof. intros s. apply same_inputs_refl. Qed.

Lemma keeps_raising {A} (e : result exn) : keeps_inputs (@raising A e).
Proof. destruct e; intros s; apply same_inputs_refl. Qed.

Lemma keeps_reading {A} (f : PagerData -> result A) :
  keeps_inputs (reading f).
Proof. intros s. apply same_inputs_refl. Qed.

Lemma keeps_assign f :
  (forall s, same_inputs s (f s)) -> keeps_inputs (assign f).
Proof. intros H s. apply H. Qed.

Lemma keeps_mbind {A B} (m : M A) (k : A -> M B) :
  keeps_inputs m -> (forall a, keeps_inputs (k a)) ->
  keeps_inputs (mbind m k).
Proof.
  intros Hm Hk s. unfold mbind. specialize (Hm s).
  destruct (m s) as [[a|e] s1]; simpl in *; [|exact Hm].
  eapply same_inputs_trans; [exact Hm | apply Hk].
Qed.

Lemma keeps_store key (m : M pyval) :
  keeps_inputs m -> keeps_inputs (store key m).
Proof.
  intros H. unfold store. apply keeps_mbind; [exact H|].
  intros v. apply keeps_assign. apply same_inputs_set_section.
Qed.

Ltac keeps_step :=
  cbv zeta;
  first
    [ apply keeps_mret
    | apply keeps_raise
    | apply keeps_raising
    | apply keeps_reading
    | apply keeps_store
    | apply keeps_assign; first [apply same_inputs_set_nmmi
                                | apply same_inputs_set_section]
    | match goal with
      | |- keeps_inputs (if ?b then _ else _) => destruct b
      | |- keeps_inputs (match ?x with (_, _) => _ end) => destruct x
      end
    | apply keeps_mbind; [|intros ?] ].

Lemma keeps_setPager env : keeps_inputs (_setPager env).
Proof. unfold _setPager. repeat keeps_step. Qed.

(** X6.  [validate] never changes what the setters stored: whether it
    returns or raises, and wherever it raises, the four flags and every
    input attribute of the object are as before; only the report and
    [_nmmi] can change. *)
Theorem validate_keeps_inputs env s :
  same_inputs s (run (validate env) s).
Proof.
  revert s. change (keeps_inputs (validate env)).
  unfold validate. repeat keeps_step; apply keeps_setPager.
Qed.

(** ** A complete account of [_setPager] and [validate] *)

(** Evaluates a method forwards with the readings at hand. *)
Ltac forward :=
  repeat (cbv beta iota zeta;
          cbn [input_attrs exposure_attrs comment_attrs model_attrs map_attrs
               _nmmi _pagerdict set_nmmi set_section attr rbind fst snd];
          match goal with
          | H : ?l = _ |- context [?l] => rewrite H
          end);
  cbv beta iota zeta;
  cbn [input_attrs exposure_attrs comment_attrs model_attrs map_attrs
       _nmmi _pagerdict set_nmmi set_section attr rbind fst snd].

Lemma setPager_eval env s i m x versioncode lfat leco al maxmmi nmmi
      origin lat lon :
  input_attrs s = Some i -> model_attrs s = Some m ->
  exposure_attrs s = Some x ->
  dict_get (_event_dict i) "event_id" = Ok versioncode ->
  dict_get levels (getAlertLevel (_fatmodel m) (_fatmodel_results m))
  = Ok lfat ->
  dict_get levels (getAlertLevel (_ecomodel m) (_ecomodel_results m))
  = Ok leco ->
  idict_get rlevels (Z.max lfat leco) = Ok al ->
  _get_maxmmi (_exposure x) = Ok (maxmmi, nmmi) ->
  dict_get (_event_dict i) "event_timestamp" = Ok origin ->
  dict_get (_event_dict i) "lat" = Ok lat ->
  dict_get (_event_dict i) "lon" = Ok lon ->
  _setPager env s
  = (Ok (pager_section env i versioncode origin lat lon al maxmmi),
     set_nmmi nmmi s).
Proof.
  intros Hi Hm Hx Hvc Hlf Hle Hal Hmx Hor Hlat Hlon.
  unfold _setPager, mbind, reading, assign, mret, self_pagerversion,
    self_event_dict, self_eventcode, self_fatmodel, self_fatmodel_results,
    self_ecomodel, self_ecomodel_results, self_exposure.
  forward. reflexivity.
Qed.

Lemma setPager_inv env s pg s1 :
  _setPager env s = (Ok pg, s1) ->
  exists i m x versioncode lfat leco al maxmmi nmmi origin lat lon,
    input_attrs s = Some i /\ model_attrs s = Some m /\
    exposure_attrs s = Some x /\
    dict_get (_event_dict i) "event_id" = Ok versioncode /\
    dict_get levels (getAlertLevel (_fatmodel m) (_fatmodel_results m))
    = Ok lfat /\
    dict_get levels (getAlertLevel (_ecomodel m) (_ecomodel_results m))
    = Ok leco /\
    idict_get rlevels (Z.max lfat leco) = Ok al /\
    _get_maxmmi (_exposure x) = Ok (maxmmi, nmmi) /\
    dict_get (_event_dict i) "event_timestamp" = Ok origin /\
    dict_get (_event_dict i) "lat" = Ok lat /\
    dict_get (_event_dict i) "lon" = Ok lon /\
    pg = pager_section env i versioncode origin lat lon al maxmmi /\
    s1 = set_nmmi nmmi s.
Proof.
  unfold _setPager. intros H. repeat step_method.
  unfold self_pagerversion, self_event_dict, self_eventcode, self_fatmodel,
    self_fatmodel_results, self_ecomodel, self_ecomodel_results,
    self_exposure in *.
  cbn [input_attrs set_nmmi] in *.
  repeat match goal with
         | H : attr _ _ _ = Ok _ |- _ =>
             apply attr_ok in H; destruct H as (? & ? & ?)
         end.
  subst.
  repeat match goal with
         | H1 : ?g = Some ?a, H2 : ?g = Some ?b |- _ =>
             rewrite H1 in H2; injection H2 as <-
         end.
  do 12 eexists. repeat split; eauto.
Qed.

(** [_setPager] reads the inputs only. *)
Lemma setPager_frame env a b pg n :
  same_inputs a b ->
  _setPager env a = (Ok pg, set_nmmi n a) ->
  _setPager env b = (Ok pg, set_nmmi n b).
Proof.
  intros (_ & _ & _ & _ & Ei & Ex & _ & Em & _) H.
  apply setPager_inv in H.
  destruct H as (i & m & x & vc & lf & le & al & mx & nm & og & la & lo &
                 Hi & Hm & Hx & Hvc & Hlf & Hle & Hal & Hmx & Hog & Hla & Hlo
                 & -> & Hs).
  assert (nm = n) as ->.
  { apply (f_equal _nmmi) in Hs. simpl in Hs. congruence. }
  rewrite Ei in Hi. rewrite Em in Hm. rewrite Ex in Hx.
  eapply setPager_eval; eassumption.
Qed.

Lemma historical_eval env s i m pg maxmmi nmmi lat lon deaths etime :
  input_attrs s = Some i -> model_attrs s = Some m ->
  dict_get (_event_dict i) "lat" = Ok lat ->
  dict_get (_event_dict i) "lon" = Ok lon ->
  dict_get (_pagerdict s) "pager" = Ok pg ->
  getitem pg "maxmmi" = Ok maxmmi ->
  _nmmi s = Some nmmi ->
  dict_get (_fatmodel_results m) "TotalFatalities" = Ok deaths ->
  dict_get (_event_dict i) "event_timestamp" = Ok etime ->
  _getHistoricalEarthquakes env s
  = Ok (getHistoricalEvents env
          (selectByRadius env (fromDefault env) lat lon EVENT_RADIUS)
          maxmmi nmmi lat lon).
Proof.
  intros Hi Hm Hla Hlo Hpg Hmx Hn Hd Het.
  unfold _getHistoricalEarthquakes, self_event_dict, self_nmmi,
    self_fatmodel_results.
  forward. reflexivity.
Qed.

Lemma historical_inv env s he :
  _getHistoricalEarthquakes env s = Ok he ->
  exists i m pg maxmmi nmmi lat lon deaths etime,
    input_attrs s = Some i /\ model_attrs s = Some m /\
    dict_get (_event_dict i) "lat" = Ok lat /\
    dict_get (_event_dict i) "lon" = Ok lon /\
    dict_get (_pagerdict s) "pager" = Ok pg /\
    getitem pg "maxmmi" = Ok maxmmi /\
    _nmmi s = Some nmmi /\
    dict_get (_fatmodel_results m) "TotalFatalities" = Ok deaths /\
    dict_get (_event_dict i) "event_timestamp" = Ok etime /\
    he = getHistoricalEvents env
           (selectByRadius env (fromDefault env) lat lon EVENT_RADIUS)
           maxmmi nmmi lat lon.
Proof.
  unfold _getHistoricalEarthquakes, self_event_dict, self_nmmi,
    self_fatmodel_results.
  intros H. repeat step_method.
  repeat match goal with
         | H : attr _ _ _ = Ok _ |- _ =>
             apply attr_ok in H; destruct H as (? & ? & ?)
         end.
  destruct (_nmmi s) as [n|] eqn:En; [|discriminate].
  subst. injection H as <-.
  match goal with H : Ok _ = Ok _ |- _ => injection H as <- end.
  do 9 eexists. repeat split; eauto.
Qed.

(** The helpers other than [_setPager] and [_getHistoricalEarthquakes]
    read the input attributes only. *)
Lemma readers_frame a b :
  same_inputs a b ->
  _setEvent a = _setEvent b /\
  _setShakeInfo a = _setShakeInfo b /\
  _setAlerts a = _setAlerts b /\
  _setPopulationExposure a = _setPopulationExposure b /\
  _setEconomicExposure a = _setEconomicExposure b /\
  _setModelResults a = _setModelResults b /\
  (forall env, _getCityTable env a = _getCityTable env b) /\
  _getComments a = _getComments b.
Proof.
  intros (_ & _ & _ & _ & Ei & Ex & Ec & Em & Ep).
  unfold _setEvent, _setShakeInfo, _setAlerts, _setPopulationExposure,
    _setEconomicExposure, _setModelResults, _getCityTable, _getComments,
    self_event_dict, self_shake_dict, self_shakegrid, self_pagerversion,
    self_exposure, self_econ_exposure, self_impact1, self_impact2,
    self_struct_comment, self_hist_comment, self_secondary_comment,
    self_fatmodel, self_ecomodel, self_fatmodel_results,
    self_ecomodel_results, self_semi_loss, self_res_fat, self_non_res_fat,
    self_city_file, self_map_cities.
  rewrite Ei, Ex, Ec, Em, Ep. repeat split; reflexivity.
Qed.

Lemma mbind_eval {A B} (m : M A) (k : A -> M B) s a s1 :
  m s = (Ok a, s1) -> mbind m k s = k a s1.
Proof. unfold mbind. now intros ->. Qed.

Lemma store_eval key (f : PagerData -> result pyval) s v :
  f s = Ok v -> store key (reading f) s = (Ok tt, set_section key v s).
Proof. intros H. unfold store, mbind, reading, assign. now rewrite H. Qed.

Lemma store_method_eval key (m : M pyval) s v s1 :
  m s = (Ok v, s1) -> store key m s = (Ok tt, set_section key v s1).
Proof. intros H. unfold store, mbind, assign. now rewrite H. Qed.

(** [validate] returns exactly when the four flags are set and each of
    the ten helpers returns, and then the object is [finalized]. *)
Lemma validate_eval env s ev pg sh al pe ee mr ct he cm nmmi :
  _input_set s = true -> _exposure_set s = true ->
  _models_set s = true -> _comments_set s = true ->
  _setEvent s = Ok ev ->
  _setPager env s = (Ok pg, set_nmmi nmmi s) ->
  _setShakeInfo s = Ok sh ->
  _setAlerts s = Ok al ->
  _setPopulationExposure s = Ok pe ->
  _setEconomicExposure s = Ok ee ->
  _setModelResults s = Ok mr ->
  _getCityTable env s = Ok ct ->
  _getHistoricalEarthquakes env (before_history s ev pg sh al pe ee mr ct nmmi)
  = Ok he ->
  _getComments s = Ok cm ->
  validate env s = (Ok tt, finalized s ev pg sh al pe ee mr ct he cm nmmi).
Proof.
  intros Fi Fe Fm Fc Hev Hpg Hsh Hal Hpe Hee Hmr Hct Hhe Hcm.
  unfold validate.
  rewrite (mbind_eval (reading (fun self => Ok (_input_set self))) _ s
             (_input_set s) s eq_refl), Fi.
  cbv beta iota delta [negb].
  rewrite (mbind_eval (reading (fun self => Ok (_exposure_set self))) _ s
             (_exposure_set s) s eq_refl), Fe.
  cbv beta iota delta [negb].
  rewrite (mbind_eval (reading (fun self => Ok (_models_set self))) _ s
             (_models_set s) s eq_refl), Fm.
  cbv beta iota delta [negb].
  rewrite (mbind_eval (reading (fun self => Ok (_comments_set self))) _ s
             (_comments_set s) s eq_refl), Fc.
  cbv beta iota delta [negb].
  rewrite (mbind_eval _ _ _ tt (set_section "event_info" ev s))
    by (apply store_eval; exact Hev).
  rewrite (mbind_eval _ _ _ tt
             (set_section "pager" pg
                (set_nmmi nmmi (set_section "event_info" ev s))))
    by (apply store_method_eval;
        apply (setPager_frame env s); [apply same_inputs_set_section|exact Hpg]).
  rewrite (mbind_eval _ _ _ tt (set_section "shake_info" sh _))
    by (apply store_eval; exact Hsh).
  rewrite (mbind_eval _ _ _ tt (set_section "alerts" al _))
    by (apply store_eval; exact Hal).
  rewrite (mbind_eval _ _ _ tt (set_section "population_exposure" pe _))
    by (apply store_eval; exact Hpe).
  rewrite (mbind_eval _ _ _ tt (set_section "economic_exposure" ee _))
    by (apply store_eval; exact Hee).
  rewrite (mbind_eval _ _ _ tt (set_section "model_results" mr _))
    by (apply store_eval; exact Hmr).
  rewrite (mbind_eval _ _ _ tt (set_section "city_table" ct _))
    by (apply store_eval; exact Hct).
  rewrite (mbind_eval _ _ _ tt (set_section "historical_earthquakes" he _))
    by (apply store_eval; exact Hhe).
  apply store_eval. exact Hcm.
Qed.

Lemma validate_trace env s s' :
  validate env s = (Ok tt, s') ->
  (_input_set s = true /\ _exposure_set s = true /\
   _models_set s = true /\ _comments_set s = true) /\
  exists ev pg sh al pe ee mr ct he cm nmmi,
    _setEvent s = Ok ev /\
    _setPager env s = (Ok pg, set_nmmi nmmi s) /\
    _setShakeInfo s = Ok sh /\
    _setAlerts s = Ok al /\
    _setPopulationExposure s = Ok pe /\
    _setEconomicExposure s = Ok ee /\
    _setModelResults s = Ok mr /\
    _getCityTable env s = Ok ct /\
    _getHistoricalEarthquakes env
      (before_history s ev pg sh al pe ee mr ct nmmi) = Ok he /\
    _getComments s = Ok cm /\
    s' = finalized s ev pg sh al pe ee mr ct he cm nmmi.
Proof.
  unfold validate. intros H.
  step_method. step_method. cbv beta in H0. injection H0 as <-.
  destruct (_input_set s); simpl in H; [|discriminate].
  step_method. step_method. cbv beta in H0. injection H0 as <-.
  destruct (_exposure_set s); simpl in H; [|discriminate].
  step_method. step_method. cbv beta in H0. injection H0 as <-.
  destruct (_models_set s); simpl in H; [|discriminate].
  step_method. step_method. cbv beta in H0. injection H0 as <-.
  destruct (_comments_set s); simpl in H; [|discriminate].
  split; [tauto|].
  repeat match goal with
         | H : mbind (store _ _) _ _ = (Ok _, _) |- _ =>
             let a := fresh "u" in let s := fresh "s" in
             let H1 := fresh "St" in
             apply mbind_ok in H; destruct H as (a & s & H1 & H);
             apply store_ok in H1; destruct H1 as (? & ? & H1 & ->)
         end.
  apply store_ok in H. destruct H as (cm & ? & H & ->).
  repeat match goal with
         | H : reading _ _ = (Ok _, _) |- _ =>
             apply reading_ok in H; destruct H as [H ->]
         end.
  pose proof St0 as Hp. apply setPager_ok in Hp.
  destruct Hp as (m & x' & lf & le & al' & mx & nm
                  & _ & _ & _ & _ & _ & _ & Hs & _).
  subst.
  do 11 eexists.
  repeat split; try eassumption; try reflexivity.
  eapply (setPager_frame env); [|exact St0].
  apply same_inputs_sym, same_inputs_set_section.
Qed.

(** ** When [validate] returns *)


Lemma levels_key l :
  In l (keys levels) -> exists n, dict_get levels l = Ok n /\ 0 <= n <= 3.
Proof.
  unfold keys, levels. simpl.
  intros H. repeat destruct H as [<-|H]; try contradiction;
    eexists; (split; [reflexivity|lia]).
Qed.

Lemma rlevels_total n : 0 <= n <= 3 -> exists l, idict_get rlevels n = Ok l.
Proof.
  intros H.
  assert (n = 0 \/ n = 1 \/ n = 2 \/ n = 3) as [-> | [-> | [-> | ->]]] by lia;
    eexists; reflexivity.
Qed.







(** ** Finalizing again *)

Lemma dict_set_same_value {V} (d : list (string * V)) k v :
  dict_get d k = Ok v -> dict_set d k v = d.
Proof.
  induction d as [|[k' v'] d IH]; simpl; [discriminate|].
  destruct (String.eqb k' k) eqn:E.
  - now intros [= ->].
  - intros H. now rewrite IH.
Qed.

Lemma store_all_idem d ev pg sh al pe ee mr ct he cm :
  store_all (store_all d ev pg sh al pe ee mr ct he cm)
            ev pg sh al pe ee mr ct he cm
  = store_all d ev pg sh al pe ee mr ct he cm.
Proof.
  set (D := store_all d ev pg sh al pe ee mr ct he cm).
  unfold store_all at 1.
  repeat (rewrite (dict_set_same_value D) by (subst D; section_lookup)).
  reflexivity.
Qed.

Lemma finalized_pagerdict s ev pg sh al pe ee mr ct he cm nmmi :
  _pagerdict (finalized s ev pg sh al pe ee mr ct he cm nmmi)
  = store_all (_pagerdict s) ev pg sh al pe ee mr ct he cm.
Proof. reflexivity. Qed.

Lemma PagerData_ext (a b : PagerData) :
  _pagerdict a = _pagerdict b ->
  same_inputs a b ->
  _nmmi a = _nmmi b ->
  a = b.
Proof.
  destruct a, b. unfold same_inputs. simpl.
  intros -> (-> & -> & -> & -> & -> & -> & -> & -> & ->) ->. reflexivity.
Qed.

Lemma same_inputs_finalized s ev pg sh al pe ee mr ct he cm nmmi :
  same_inputs s (finalized s ev pg sh al pe ee mr ct he cm nmmi).
Proof. unfold same_inputs. repeat split; reflexivity. Qed.

Lemma finalized_idem s ev pg sh al pe ee mr ct he cm nmmi :
  finalized (finalized s ev pg sh al pe ee mr ct he cm nmmi)
            ev pg sh al pe ee mr ct he cm nmmi
  = finalized s ev pg sh al pe ee mr ct he cm nmmi.
Proof.
  apply PagerData_ext.
  - rewrite !finalized_pagerdict. apply store_all_idem.
  - apply same_inputs_sym, same_inputs_finalized.
  - reflexivity.
Qed.

Lemma before_history_pager s ev pg sh al pe ee mr ct nmmi :
  dict_get (_pagerdict (before_history s ev pg sh al pe ee mr ct nmmi))
           "pager" = Ok pg.
Proof.
  unfold before_history. cbn [_pagerdict set_section set_nmmi].
  repeat (rewrite dict_get_set_other by reflexivity).
  apply dict_get_set_same.
Qed.

(** X8.  Finalizing twice is harmless: when [validate] has returned, a
    second [validate] on the object it left, with collaborators that
    answer as before, returns as well and leaves the object, report
    included, exactly as the first one did. *)
Theorem validate_idempotent env s s' :
  validate env s = (Ok tt, s') -> validate env s' = (Ok tt, s').
Proof.
  intros H. apply validate_trace in H.
  destruct H as ((Fi & Fe & Fm & Fc) &
                 ev & pg & sh & al & pe & ee & mr & ct & he & cm & nmmi &
                 Hev & Hpg & Hsh & Hal & Hpe & Hee & Hmr & Hct & Hhe & Hcm
                 & ->).
  pose proof (same_inputs_finalized s ev pg sh al pe ee mr ct he cm nmmi)
    as Hs.
  pose proof (finalized_idem s ev pg sh al pe ee mr ct he cm nmmi) as Eid.
  remember (finalized s ev pg sh al pe ee mr ct he cm nmmi) as s' eqn:Es'.
  clear Es'.
  destruct (readers_frame s s' Hs)
    as (Eev & Esh & Eal & Epe & Eee & Emr & Ect & Ecm).
  destruct Hs as (Ei & Ee & Em & Ec & Eia & Exa & Eca & Ema & Epa).
  rewrite <- Eid at 2.
  apply validate_eval; try congruence;
    try (rewrite <- Ect; exact Hct).
  - apply (setPager_frame env s); [|exact Hpg].
    unfold same_inputs. tauto.
  - apply historical_inv in Hhe.
    destruct Hhe as (i & m & pg' & mx & nm & lat & lon & deaths & etime &
                     Hi & Hm & Hlat & Hlon & Hpg' & Hmx & Hn & Hd & Het & ->).
    rewrite before_history_pager in Hpg'. injection Hpg' as <-.
    apply (historical_eval env _ i m pg mx nm lat lon deaths etime);
      try assumption.
    + change (input_attrs s' = Some i). rewrite <- Eia. exact Hi.
    + change (model_attrs s' = Some m). rewrite <- Ema. exact Hm.
    + apply before_history_pager.
Qed.

Lemma validate_idempotent_witness :
  validate demo_env
    (run (validate demo_env) (demo_registry "green" "orange" demo_total))
  = (Ok tt,
     run (validate demo_env) (demo_registry "green" "orange" demo_total)).
Proof.
  apply (validate_idempotent demo_env
           (demo_registry "green" "orange" demo_total)).
  vm_compute. reflexivity.
Defined.

(** ** The finalized report and its accessors *)

(** X9.  On a registry that has not been finalized before, a [validate]
    that returns leaves a report with exactly the ten sections, in the
    order event_info, pager, shake_info, alerts, population_exposure,
    economic_exposure, model_results, city_table, historical_earthquakes,
    comments. *)
Theorem finalized_report_keys env s s' :
  pre_finalize s ->
  validate env s = (Ok tt, s') ->
  keys (_pagerdict s') = report_keys.
Proof.
  intros Hp H. apply pre_finalize_empty in Hp.
  apply validate_trace in H.
  destruct H as (_ & ev & pg & sh & al & pe & ee & mr & ct & he & cm & nmmi
                 & _ & _ & _ & _ & _ & _ & _ & _ & _ & _ & ->).
  rewrite finalized_pagerdict, Hp. reflexivity.
Qed.

Lemma finalized_report_keys_witness :
  keys (_pagerdict (run (validate demo_env)
                        (demo_registry "green" "orange" demo_total)))
  = report_keys.
Proof.
  apply (finalized_report_keys demo_env
           (demo_registry "green" "orange" demo_total)).
  - unfold demo_registry, demo_four, demo_two.
    repeat (apply pre_setter; [constructor|]). apply pre_init.
  - vm_compute. reflexivity.
Defined.

(** X10.  The comments come back as they were set: after a [validate]
    that returns, [getImpactComments] gives the pair of the two impact
    comments of [setComments] in their order, and [getStructureComment]
    and [getHistoricalComment] give its structure and history
    comments. *)
Theorem comments_round_trip env s s' c :
  comment_attrs s = Some c ->
  validate env s = (Ok tt, s') ->
  getImpactComments s' = Ok (_impact1 c, _impact2 c) /\
  getStructureComment s' = Ok (_struct_comment c) /\
  getHistoricalComment s' = Ok (_hist_comment c) /\
  report s' ["comments"; "secondary_comment"] = Ok (_secondary_comment c).
Proof.
  intros Hc H. apply validate_trace in H.
  destruct H as (_ & ev & pg & sh & al & pe & ee & mr & ct & he & cm & nmmi
                 & _ & _ & _ & _ & _ & _ & _ & _ & _ & Hcm & ->).
  unfold _getComments, self_impact1, self_impact2, self_struct_comment,
    self_hist_comment, self_secondary_comment in Hcm.
  rewrite Hc in Hcm. cbn [attr rbind] in Hcm. injection Hcm as <-.
  unfold getImpactComments, getStructureComment, getHistoricalComment,
    report.
  cbn [lookup_path getitem].
  rewrite finalized_pagerdict.
  assert (E : forall d x1 x2 x3 x4 x5 x6 x7 x8 x9 v,
             dict_get (store_all d x1 x2 x3 x4 x5 x6 x7 x8 x9 v) "comments"
             = Ok v) by (intros; section_lookup).
  rewrite E. repeat split; reflexivity.
Qed.

Lemma comments_round_trip_witness :
  getImpactComments
    (run (validate demo_env) (demo_registry "green" "orange" demo_total))
  = Ok (PyStr "impact1", PyStr "") /\
  getStructureComment
    (run (validate demo_env) (demo_registry "green" "orange" demo_total))
  = Ok (PyStr "structures") /\
  getHistoricalComment
    (run (validate demo_env) (demo_registry "green" "orange" demo_total))
  = Ok (PyStr "history") /\
  report (run (validate demo_env) (demo_registry "green" "orange" demo_total))
         ["comments"; "secondary_comment"] = Ok (PyStr "secondary").
Proof.
  apply (comments_round_trip demo_env
           (demo_registry "green" "orange" demo_total) _
           {| _impact1 := PyStr "impact1";
              _impact2 := PyStr "";
              _struct_comment := PyStr "structures";
              _hist_comment := PyStr "history";
              _secondary_comment := PyStr "secondary" |}).
  - reflexivity.
  - vm_compute. reflexivity.
Defined.

(** X11.  After a [validate] that returns, [getEventInfo] gives the
    event dictionary of the grid under the report's field names, with
    the pager version of [setInputs] as its version;
    [getSoftwareVersion] gives the constant [SOFTWARE_VERSION], and
    [getElapsed] what the elapsed-time collaborator answers for the
    origin time and the processing time. *)
Theorem event_info_round_trip env s s' i :
  input_attrs s = Some i ->
  validate env s = (Ok tt, s') ->
  exists eventid time lat lon depth mag location,
    dict_get (_event_dict i) "event_id" = Ok eventid /\
    dict_get (_event_dict i) "event_timestamp" = Ok time /\
    dict_get (_event_dict i) "lat" = Ok lat /\
    dict_get (_event_dict i) "lon" = Ok lon /\
    dict_get (_event_dict i) "depth" = Ok depth /\
    dict_get (_event_dict i) "magnitude" = Ok mag /\
    dict_get (_event_dict i) "event_description" = Ok location /\
    getEventInfo s'
    = Ok (PyDict [("eventid", eventid); ("time", time); ("lat", lat);
                  ("lon", lon); ("depth", depth); ("mag", mag);
                  ("version", _pagerversion i); ("location", location)]) /\
    getSoftwareVersion s' = Ok (PyStr SOFTWARE_VERSION) /\
    getElapsed s' = Ok (getElapsedString env time (utcnow env)).
Proof.
  intros Hi H. apply validate_trace in H.
  destruct H as (_ & ev & pg & sh & al & pe & ee & mr & ct & he & cm & nmmi
                 & Hev & Hpg & _ & _ & _ & _ & _ & _ & _ & _ & ->).
  apply setPager_inv in Hpg.
  destruct Hpg as (i' & m & x & vc & lf & le & lv & mx & nm & og & la & lo &
                   Hi' & _ & _ & _ & _ & _ & _ & _ & Hog & _ & _ & -> & _).
  rewrite Hi in Hi'. injection Hi' as <-.
  unfold _setEvent, self_event_dict, self_pagerversion in Hev.
  rewrite Hi in Hev. cbn [attr rbind] in Hev.
  repeat step_method. injection Hev as <-.
  rewrite Hog in *.
  match goal with H : Ok og = Ok _ |- _ => injection H as <- end.
  do 7 eexists. repeat split; try eassumption.
  - unfold getEventInfo. rewrite finalized_pagerdict. section_lookup.
  - unfold getSoftwareVersion. rewrite finalized_pagerdict, store_all_pager.
    reflexivity.
  - unfold getElapsed. rewrite finalized_pagerdict, store_all_pager.
    reflexivity.
Qed.

Lemma event_info_round_trip_witness :
  getSoftwareVersion
    (run (validate demo_env) (demo_registry "green" "orange" demo_total))
  = Ok (PyStr "2.0b").
Proof.
  destruct (event_info_round_trip demo_env
              (demo_registry "green" "orange" demo_total)
              (run (validate demo_env)
                   (demo_registry "green" "orange" demo_total))
              {| _event_dict := getEventDict demo_grid;
                 _shake_dict := getShakeDict demo_grid;
                 _shakegrid := demo_grid;
                 _pagerversion := PyInt 1;
                 _eventcode := PyStr "us2000test" |}
              eq_refl)
    as (? & ? & ? & ? & ? & ? & ? & _ & _ & _ & _ & _ & _ & _ & _ & Hv & _).
  - vm_compute. reflexivity.
  - exact Hv.
Defined.

(** X12.  After a [validate] that returns, [getTotalExposure] gives the
    total entry of the population table of [setExposure], bucket by
    bucket. *)
Theorem total_exposure_round_trip env s s' x total :
  exposure_attrs s = Some x ->
  dict_get (_exposure x) "TotalExposure" = Ok total ->
  validate env s = (Ok tt, s') ->
  getTotalExposure s' = Ok (PyList (map PyInt total)).
Proof.
  intros Hx Ht H. apply validate_trace in H.
  destruct H as (_ & ev & pg & sh & al & pe & ee & mr & ct & he & cm & nmmi
                 & _ & _ & _ & _ & Hpe & _ & _ & _ & _ & _ & ->).
  unfold _setPopulationExposure, self_exposure in Hpe.
  rewrite Hx in Hpe. cbn [attr rbind] in Hpe. rewrite Ht in Hpe.
  cbn [rbind] in Hpe. injection Hpe as <-.
  unfold getTotalExposure.
  rewrite finalized_pagerdict, store_all_population. reflexivity.
Qed.

Lemma total_exposure_round_trip_witness :
  getTotalExposure
    (run (validate demo_env) (demo_registry "green" "orange" demo_total))
  = Ok (PyList (map PyInt demo_total)).
Proof.
  apply (total_exposure_round_trip demo_env
           (demo_registry "green" "orange" demo_total) _
           {| _maxmmi := 1200;
              _exposure := demo_exposure demo_total;
              _econ_exposure := demo_econ_exposure demo_total |}).
  - reflexivity.
  - reflexivity.
  - vm_compute. reflexivity.
Defined.

(** ** What the collaborators are asked *)

(** X13.  The historical earthquakes of a finalized report are what the
    catalog answers when it is searched around the epicentre of the
    event dictionary with [EVENT_RADIUS] (400) and asked for the events
    comparable to the index and the count that [_get_maxmmi] gives for
    the population table; the list is stored as it comes and
    [getHistoricalTable] returns it. *)
Theorem historical_table_contract env s s' i x :
  input_attrs s = Some i ->
  exposure_attrs s = Some x ->
  validate env s = (Ok tt, s') ->
  exists lat lon maxmmi nmmi,
    dict_get (_event_dict i) "lat" = Ok lat /\
    dict_get (_event_dict i) "lon" = Ok lon /\
    _get_maxmmi (_exposure x) = Ok (maxmmi, nmmi) /\
    getHistoricalTable s'
    = Ok (getHistoricalEvents env
            (selectByRadius env (fromDefault env) lat lon 400)
            (PyInt maxmmi) nmmi lat lon).
Proof.
  intros Hi Hx H. apply validate_trace in H.
  destruct H as (_ & ev & pg & sh & al & pe & ee & mr & ct & he & cm & nmmi
                 & _ & Hpg & _ & _ & _ & _ & _ & _ & Hhe & _ & ->).
  apply setPager_inv in Hpg.
  destruct Hpg as (i' & m & x' & vc & lf & le & lv & mx & nm & og & la & lo &
                   Hi' & _ & Hx' & _ & _ & _ & _ & Hmx & _ & Hla & Hlo & -> &
                   Hs).
  assert (nm = nmmi) as ->.
  { apply (f_equal _nmmi) in Hs. simpl in Hs. congruence. }
  rewrite Hi in Hi'. injection Hi' as <-.
  rewrite Hx in Hx'. injection Hx' as <-.
  apply historical_inv in Hhe.
  destruct Hhe as (i2 & m2 & pg2 & mx2 & nm2 & lat & lon & deaths & etime &
                   Hi2 & _ & Hlat & Hlon & Hpg2 & Hmx2 & Hn2 & _ & _ & ->).
  change (input_attrs s = Some i2) in Hi2.
  rewrite Hi in Hi2. injection Hi2 as <-.
  rewrite before_history_pager in Hpg2. injection Hpg2 as <-.
  cbn in Hmx2. injection Hmx2 as <-.
  cbn in Hn2. injection Hn2 as <-.
  exists lat, lon, mx, nmmi. repeat split; auto.
  unfold getHistoricalTable. rewrite finalized_pagerdict.
  section_lookup.
Qed.

Lemma historical_table_contract_witness :
  exists lat lon maxmmi nmmi,
    dict_get (getEventDict demo_grid) "lat" = Ok lat /\
    dict_get (getEventDict demo_grid) "lon" = Ok lon /\
    _get_maxmmi (demo_exposure demo_total) = Ok (maxmmi, nmmi) /\
    getHistoricalTable
      (run (validate demo_env) (demo_registry "green" "orange" demo_total))
    = Ok (getHistoricalEvents demo_env
            (selectByRadius demo_env (fromDefault demo_env) lat lon 400)
            (PyInt maxmmi) nmmi lat lon).
Proof.
  apply (historical_table_contract demo_env
           (demo_registry "green" "orange" demo_total) _
           {| _event_dict := getEventDict demo_grid;
              _shake_dict := getShakeDict demo_grid;
              _shakegrid := demo_grid;
              _pagerversion := PyInt 1;
              _eventcode := PyStr "us2000test" |}
           {| _maxmmi := 1200;
              _exposure := demo_exposure demo_total;
              _econ_exposure := demo_econ_exposure demo_total |}).
  - reflexivity.
  - reflexivity.
  - vm_compute. reflexivity.
Defined.

(** X14.  The city table of a finalized report is what the city
    collaborators answer for the city file and the number of cities of
    [setMapInfo] and the mmi layer of the grid of [setInputs]; it is
    stored as it comes and [getCityTable] returns it. *)
Theorem city_table_contract env s s' i p :
  input_attrs s = Some i ->
  map_attrs s = Some p ->
  validate env s = (Ok tt, s') ->
  getCityTable s'
  = Ok (getCityTable_ env
          (PagerCities env (loadFromGeoNames env (_city_file p))
                       (getLayer (_shakegrid i) "mmi"))
          (_map_cities p)).
Proof.
  intros Hi Hp H. apply validate_trace in H.
  destruct H as (_ & ev & pg & sh & al & pe & ee & mr & ct & he & cm & nmmi
                 & _ & _ & _ & _ & _ & _ & _ & Hct & _ & _ & ->).
  unfold _getCityTable, self_city_file, self_shakegrid, self_map_cities
    in Hct.
  rewrite Hi, Hp in Hct. cbn [attr rbind] in Hct. injection Hct as <-.
  unfold getCityTable. rewrite finalized_pagerdict. section_lookup.
Qed.

Lemma city_table_contract_witness :
  getCityTable
    (run (validate demo_env) (demo_registry "green" "orange" demo_total))
  = Ok (getCityTable_ demo_env
          (PagerCities demo_env
             (loadFromGeoNames demo_env (PyStr "cities1000.txt"))
             (getLayer demo_grid "mmi"))
          (PyInt 11)).
Proof.
  apply (city_table_contract demo_env
           (demo_registry "green" "orange" demo_total) _
           {| _event_dict := getEventDict demo_grid;
              _shake_dict := getShakeDict demo_grid;
              _shakegrid := demo_grid;
              _pagerversion := PyInt 1;
              _eventcode := PyStr "us2000test" |}
           {| _city_file := PyStr "cities1000.txt";
              _map_cities := PyInt 11 |}).
  - reflexivity.
  - reflexivity.
  - vm_compute. reflexivity.
Defined.

(** ** Model results *)

Lemma country_losses_loop_ok model total_key loss_key items : forall acc,
  country_losses_loop model total_key loss_key items acc
  = (acc ++ map (loss_record model loss_key)
                (filter (is_loss_country total_key) items))%list.
Proof.
  induction items as [|[ccode loss] items IH]; intros acc; simpl.
  - now rewrite app_nil_r.
  - unfold is_loss_country at 1. simpl fst.
    destruct (String.eqb ccode total_key); simpl.
    + apply IH.
    + rewrite IH, <- app_assoc. reflexivity.
Qed.

Lemma loss_countries_length (results : pydict) k total :
  NoDup (keys results) -> dict_get results k = Ok total ->
  S (length (filter (is_loss_country k) results)) = length results.
Proof.
  induction results as [|[c v] results IH]; simpl; intros Hn Hg;
    [discriminate|].
  inversion Hn as [|? ? Hc Hn']; subst.
  unfold is_loss_country at 1. simpl fst.
  destruct (String.eqb c k) eqn:E; simpl.
  - apply String.eqb_eq in E. subst c. f_equal.
    clear IH Hg Hn Hn'. induction results as [|[c v'] results IH];
      [reflexivity|].
    simpl in Hc. simpl. unfold is_loss_country at 1. simpl fst.
    destruct (String.eqb c k) eqn:E'.
    + apply String.eqb_eq in E'. tauto.
    + simpl. f_equal. apply IH. tauto.
  - f_equal. now apply IH.
Qed.

(** X15.  [_setModelResults] gives, for the fatality and for the
    economic model result, the value of the total key and one record per
    other entry, in the result's order, with the country code, the loss
    value, and the rates that the model's [getLossRates] answers for
    that country and the intensities 1 to 10; the total key is not among
    the records, which are one fewer than the entries when the keys are
    distinct.  The three semi-empirical values are passed through. *)
Theorem model_results_reshaping s m deaths dollars :
  model_attrs s = Some m ->
  dict_get (_fatmodel_results m) "TotalFatalities" = Ok deaths ->
  dict_get (_ecomodel_results m) "TotalDollars" = Ok dollars ->
  let fatcountries :=
    filter (is_loss_country "TotalFatalities") (_fatmodel_results m) in
  let ecocountries :=
    filter (is_loss_country "TotalDollars") (_ecomodel_results m) in
  _setModelResults s
  = Ok (PyDict
          [("empirical_fatality",
            PyDict [("total_fatalities", deaths);
                    ("country_fatalities",
                     PyList (map (loss_record (_fatmodel m) "fatalities")
                                 fatcountries))]);
           ("empirical_economic",
            PyDict [("total_dollars", dollars);
                    ("country_dollars",
                     PyList (map (loss_record (_ecomodel m) "us_dollars")
                                 ecocountries))]);
           ("semi_empirical_fatalities",
            PyDict [("fatalities", _semi_loss m);
                    ("residental_fatalities", _res_fat m);
                    ("non_residental_fatalities", _non_res_fat m)])]) /\
  ~ In "TotalFatalities" (keys fatcountries) /\
  ~ In "TotalDollars" (keys ecocountries) /\
  (NoDup (keys (_fatmodel_results m)) ->
   S (length fatcountries) = length (_fatmodel_results m)) /\
  (NoDup (keys (_ecomodel_results m)) ->
   S (length ecocountries) = length (_ecomodel_results m)) /\
  range_1_11 = [1; 2; 3; 4; 5; 6; 7; 8; 9; 10].
Proof.
  intros Hm Hd Ht fatcountries ecocountries.
  assert (Hex : forall k (r : pydict),
             ~ In k (keys (filter (is_loss_country k) r))).
  { intros k r H. unfold keys in H. apply in_map_iff in H.
    destruct H as ([c v] & Hc & Hin). simpl in Hc. subst c.
    apply filter_In in Hin. destruct Hin as [_ Hin].
    unfold is_loss_country in Hin. simpl in Hin.
    now rewrite String.eqb_refl in Hin. }
  split; [|split; [apply Hex|split; [apply Hex|split; [|split]]]].
  - unfold _setModelResults, self_fatmodel_results, self_fatmodel,
      self_ecomodel_results, self_ecomodel, self_semi_loss, self_res_fat,
      self_non_res_fat.
    forward. rewrite !country_losses_loop_ok. reflexivity.
  - intros Hn. eapply loss_countries_length; eassumption.
  - intros Hn. eapply loss_countries_length; eassumption.
  - reflexivity.
Qed.

Lemma model_results_reshaping_witness :
  _setModelResults (demo_registry "green" "orange" demo_total)
  = Ok (PyDict
          [("empirical_fatality",
            PyDict [("total_fatalities", PyInt 3);
                    ("country_fatalities",
                     PyList [PyDict [("country_code", PyStr "PH");
                                     ("rates",
                                      PyList (repeat (PyFloat 0) 10));
                                     ("fatalities", PyInt 3)]])]);
           ("empirical_economic",
            PyDict [("total_dollars", PyInt 9);
                    ("country_dollars",
                     PyList [PyDict [("country_code", PyStr "PH");
                                     ("rates",
                                      PyList (repeat (PyFloat 0) 10));
                                     ("us_dollars", PyInt 9)]])]);
           ("semi_empirical_fatalities",
            PyDict [("fatalities", PyInt 2);
                    ("residental_fatalities", PyInt 1);
                    ("non_residental_fatalities", PyInt 1)])]).
Proof.
  apply (model_results_reshaping
           (demo_registry "green" "orange" demo_total)
           (demo_model_attrs "green" "orange") (PyInt 3) (PyInt 9));
    reflexivity.
Defined.

(** ** How the alerts can fail *)

Lemma known_label_bin prange :
  In prange range_labels ->
  exists color rmin rmax,
    dict_get colors prange = Ok color /\ split "-" prange = [rmin; rmax].
Proof.
  intros Hin. unfold range_labels, keys in Hin. simpl in Hin.
  repeat destruct Hin as [<-|Hin]; try contradiction;
    do 3 eexists; split; reflexivity.
Qed.

(** X16.  The loop over a probability mapping fails in one way only.
    Either every label of the mapping is one of the seven range labels,
    and the loop returns the bins collected so far followed by one bin
    per item; or it raises a [KeyError] that carries the first label of
    the mapping that is not one of the seven.  It never fails on the
    split of a label. *)
Theorem bins_loop_outcome items : forall bins,
  ((forall k, In k (keys items) -> In k range_labels) /\
   exists out,
     bins_loop items bins = Ok out /\
     length out = (length bins + length items)%nat)
  \/
  (exists pre k v post,
      items = (pre ++ (k, v) :: post)%list /\
      (forall k', In k' (keys pre) -> In k' range_labels) /\
      ~ In k range_labels /\
      bins_loop items bins = Raise (KeyError (PyStr k))).
Proof.
  induction items as [|[prange pvalue] items IH]; intros bins.
  - left. split; [intros k []|]. exists bins. split; [reflexivity|].
    simpl. lia.
  - destruct (in_dec string_dec prange range_labels) as [Hin|Hout].
    + destruct (known_label_bin prange Hin) as (color & rmin & rmax & Hc & Hs).
      cbn [bins_loop]. rewrite Hc, Hs. cbn [rbind unpack2].
      destruct (IH (bins ++ [PyDict [("color", PyStr color);
                                     ("min", PyStr rmin);
                                     ("max", PyStr rmax);
                                     ("probability", pvalue)]])%list)
        as [[Hall (out & Ho & Hl)]|(pre & k & v & post & -> & Hpre & Hk & Hr)].
      * left. split.
        -- intros k [<-|Hk]; [exact Hin | now apply Hall].
        -- exists out. split; [exact Ho|].
           rewrite Hl, length_app. simpl. lia.
      * right. exists ((prange, pvalue) :: pre), k, v, post.
        repeat split; auto.
        intros k' [<-|Hk']; [exact Hin | now apply Hpre].
    + right. exists [], prange, pvalue, items.
      repeat split; auto; [intros k' []|].
      cbn [bins_loop]. rewrite dict_get_absent; [reflexivity|].
      exact Hout.
Qed.

(** X17.  [_setAlerts] raises a [KeyError] that carries the label when
    the alert level of a model is not one of green, yellow, orange and
    red: the fatality label when it is unknown, else the economic label
    when that one is. *)
Theorem setAlerts_unknown_level s m :
  model_attrs s = Some m ->
  let fatlevel := getAlertLevel (_fatmodel m) (_fatmodel_results m) in
  let ecolevel := getAlertLevel (_ecomodel m) (_ecomodel_results m) in
  (~ In fatlevel (keys leveldict) ->
   _setAlerts s = Raise (KeyError (PyStr fatlevel))) /\
  (In fatlevel (keys leveldict) -> ~ In ecolevel (keys leveldict) ->
   _setAlerts s = Raise (KeyError (PyStr ecolevel))).
Proof.
  intros Hm fatlevel ecolevel.
  unfold _setAlerts, self_fatmodel, self_fatmodel_results, self_ecomodel,
    self_ecomodel_results.
  rewrite Hm. cbn [attr rbind]. fold fatlevel ecolevel.
  split.
  - intros N. now rewrite (dict_get_absent leveldict fatlevel N).
  - intros Hf N.
    destruct (levels_key _ Hf) as (lf & Hlf & Rf).
    destruct (rlevels_total lf Rf) as (rf & Hrf).
    change levels with leveldict in Hlf.
    change rlevels with rleveldict in Hrf.
    rewrite Hlf. cbn [rbind]. rewrite Hrf. cbn [rbind].
    now rewrite (dict_get_absent leveldict ecolevel N).
Qed.

Lemma setAlerts_unknown_level_witness :
  _setAlerts (demo_registry "purple" "red" demo_total)
  = Raise (KeyError (PyStr "purple")) /\
  _setAlerts (demo_registry "red" "blue" demo_total)
  = Raise (KeyError (PyStr "blue")).
Proof.
  split.
  - apply (proj1 (setAlerts_unknown_level
                    (demo_registry "purple" "red" demo_total)
                    (demo_model_attrs "purple" "red") eq_refl)).
    simpl. intuition discriminate.
  - apply (proj2 (setAlerts_unknown_level
                    (demo_registry "red" "blue" demo_total)
                    (demo_model_attrs "red" "blue") eq_refl)).
    + simpl. tauto.
    + simpl. intuition discriminate.
Defined.
